(** * BugBoard AI agent SDK: the stuck-agent detector

    A shallow embedding of the class [BugBoardAgent] of the agent SDK
    (constructor, [reportBug], [trackOutput], [trackBuildFailure],
    [resetRetryDetection], [setTimeout], [checkForStuckAgent],
    [autoReportBug]) and the properties of its retry detection.

    How the TypeScript is rendered:
    - the instance ([this]) is a record; a method is a computation in a
      state-and-exception monad over a [World] that holds the instance and
      what the method can reach outside of it: the system clock, the HTTP
      requests handed to axios, the console, and the promises that settle;
    - [Date.now()] and [new Date()] read the system clock: the n-th reading
      ever taken returns [clock n], for an arbitrary [clock];
    - an [async] method is split at its [await]: the part before it runs
      inside the call that starts it, the part after it runs when the sink
      answers the request ([respond]);
    - [buildFailures] is a JavaScript number that only ever holds a counter
      value; it is an [N] (the embedding is exact below 2^53);
      times and timeouts are integral milliseconds in [Z]. *)

From Stdlib Require Import List String Ascii ZArith NArith Lia Bool DecimalString.
Import ListNotations.

Local Open Scope string_scope.
Local Open Scope list_scope.

(** ** JavaScript primitives used by the class *)

(** [Array.prototype.push], [shift], [slice(-n)], and element access. *)
Definition push {A} (l : list A) (x : A) : list A := (l ++ [x])%list.

Definition shift {A} (l : list A) : list A := List.tl l.

Definition slice_last {A} (n : nat) (l : list A) : list A :=
  List.skipn (List.length l - n) l.

Definition at_index {A} (l : list A) (i : nat) : option A := List.nth_error l i.

(** [===] on values that are a string or [undefined]. *)
Definition strict_eq (x y : option string) : bool :=
  match x, y with
  | Some a, Some b => String.eqb a b
  | None, None => true
  | _, _ => false
  end.

(** [Array.prototype.join]. *)
Fixpoint join (sep : string) (l : list string) : string :=
  match l with
  | [] => ""
  | [x] => x
  | x :: xs => (x ++ sep ++ join sep xs)%string
  end.

(** [String.prototype.replace] with a string pattern: the first occurrence
    of [searchValue], found by [indexOf], is cut out and [replaceValue] is
    put in its place; without an occurrence the string is returned as is. *)
Definition replace (searchValue replaceValue s : string) : string :=
  match String.index 0 searchValue s with
  | None => s
  | Some pos =>
      let preceding := String.substring 0 pos s in
      let following :=
        String.substring (pos + String.length searchValue)
          (String.length s - (pos + String.length searchValue)) s in
      (preceding ++ replaceValue ++ following)%string
  end.

(** A counter in a template literal: its decimal digits. *)
Definition Number_toString (n : N) : string :=
  NilZero.string_of_uint (N.to_uint n).

Definition newline : string := String (ascii_of_nat 10) "".

(** The literal ['\n\n--- Next Output ---\n\n']. *)
Definition separator : string :=
  (newline ++ newline ++ "--- Next Output ---" ++ newline ++ newline)%string.

(** ** Data model *)

Record BugReportOptions := {
  opt_apiUrl : option string;
  opt_agentName : string
}.

Record BugData := {
  input : string;
  logs : string;
  error : option string
}.

Record RetryDetectionState := {
  outputs : list string;
  buildFailures : N;
  lastActivity : Z
}.

Record BugBoardAgent := {
  apiUrl : string;
  agentName : string;
  retryState : RetryDetectionState;
  timeoutMs : Z
}.

(** What [reportBug] resolves to. *)
Record BugResult := {
  id : string;
  url : string
}.

(** The JSON body of the POST. [timestamp] is the clock reading that
    [new Date()] takes (its ISO-8601 rendering is left out). *)
Record Body := {
  body_agentName : string;
  body_input : string;
  body_logs : string;
  body_error : option string;
  timestamp : Z
}.

(** Who awaits a request: a caller of [reportBug], or [autoReportBug]. *)
Inductive Origin := Manual | Auto.

Record Request := {
  origin : Origin;
  req_url : string;
  req_body : Body
}.

(** The error object that axios rejects with (transport failure or a
    status outside 2xx), by its message. *)
Definition Error := string.

(** The sink's answer to a request: a 2xx response whose body holds [id],
    or a rejection. *)
Inductive Response :=
| Success (data_id : string)
| Failure (e : Error).

(** How a piece of code ends: normally with a value, or by throwing. For
    an [async] function: its promise resolves, or rejects. *)
Inductive Completion (A : Type) :=
| Normal (a : A)
| Throw (e : Error).
Arguments Normal {A} a.
Arguments Throw {A} e.

Record World := {
  this : BugBoardAgent;
  ticks : nat;                          (* clock readings taken so far *)
  pending : list Request;               (* requests the sink has not answered, oldest first *)
  posted : list Request;                (* every request handed to axios.post, oldest first *)
  console : list (string * Error);      (* console.error lines *)
  settled : list (Completion BugResult);(* outcomes delivered to the callers of reportBug *)
  unhandled : list Error                (* rejections of promises nobody awaits *)
}.

(** ** The monad of method bodies *)

Definition M (A : Type) : Type := World -> Completion A * World.

Definition ret {A} (a : A) : M A := fun w => (Normal a, w).

Definition bind {A B} (m : M A) (k : A -> M B) : M B :=
  fun w =>
    match m w with
    | (Normal a, w') => k a w'
    | (Throw e, w') => (Throw e, w')
    end.

Definition throw {A} (e : Error) : M A := fun w => (Throw e, w).

Definition try_catch {A} (body : M A) (handler : Error -> M A) : M A :=
  fun w =>
    match body w with
    | (Normal a, w') => (Normal a, w')
    | (Throw e, w') => handler e w'
    end.

Notation "x <- m ;; k" := (bind m (fun x => k))
  (at level 61, m at next level, right associativity).
Notation "m ;; k" := (bind m (fun _ => k))
  (at level 61, right associativity).

Definition exec {A} (m : M A) (w : World) : World := snd (m w).
Definition outcome {A} (m : M A) (w : World) : Completion A := fst (m w).

(** Field updates. *)
Definition with_outputs (o : list string) (r : RetryDetectionState) :=
  {| outputs := o; buildFailures := buildFailures r; lastActivity := lastActivity r |}.
Definition with_buildFailures (n : N) (r : RetryDetectionState) :=
  {| outputs := outputs r; buildFailures := n; lastActivity := lastActivity r |}.
Definition with_lastActivity (t : Z) (r : RetryDetectionState) :=
  {| outputs := outputs r; buildFailures := buildFailures r; lastActivity := t |}.
Definition with_retryState (r : RetryDetectionState) (a : BugBoardAgent) :=
  {| apiUrl := apiUrl a; agentName := agentName a; retryState := r; timeoutMs := timeoutMs a |}.
Definition with_timeoutMs (t : Z) (a : BugBoardAgent) :=
  {| apiUrl := apiUrl a; agentName := agentName a; retryState := retryState a; timeoutMs := t |}.
Definition with_this (a : BugBoardAgent) (w : World) :=
  {| this := a; ticks := ticks w; pending := pending w; posted := posted w;
     console := console w; settled := settled w; unhandled := unhandled w |}.

(** World updates: a clock reading is consumed, a request leaves, a line
    is written to the console. *)
Definition tick (w : World) : World :=
  {| this := this w; ticks := S (ticks w); pending := pending w; posted := posted w;
     console := console w; settled := settled w; unhandled := unhandled w |}.
Definition send (rq : Request) (w : World) : World :=
  {| this := this w; ticks := ticks w; pending := (pending w ++ [rq])%list;
     posted := (posted w ++ [rq])%list; console := console w;
     settled := settled w; unhandled := unhandled w |}.
Definition log (msg : string) (e : Error) (w : World) : World :=
  {| this := this w; ticks := ticks w; pending := pending w; posted := posted w;
     console := (console w ++ [(msg, e)])%list; settled := settled w;
     unhandled := unhandled w |}.

Definition get_this : M BugBoardAgent := fun w => (Normal (this w), w).
Definition get_retryState : M RetryDetectionState :=
  fun w => (Normal (retryState (this w)), w).
Definition set_retryState (r : RetryDetectionState) : M unit :=
  fun w => (Normal tt, with_this (with_retryState r (this w)) w).
Definition modify_retryState (f : RetryDetectionState -> RetryDetectionState) : M unit :=
  r <- get_retryState ;; set_retryState (f r).

Definition console_error (msg : string) (e : Error) : M unit :=
  fun w => (Normal tt, log msg e w).

(** [axios.post(url, body)]: the request leaves; its promise is pending. *)
Definition axios_post (o : Origin) (u : string) (b : Body) : M unit :=
  fun w => (Normal tt, send {| origin := o; req_url := u; req_body := b |} w).

Section Detector.

(** The system clock: [clock n] is what the n-th reading returns. *)
Variable clock : nat -> Z.

Definition Date_now : M Z :=
  fun w => (Normal (clock (ticks w)), tick w).

(** ** The class *)

(** Field initialisers and constructor: [lastActivity: Date.now()],
    [timeoutMs = 300000], [options.apiUrl || 'https://bugboard.ai/api']. *)
Definition new_BugBoardAgent (options : BugReportOptions) : World :=
  {| this :=
       {| apiUrl := match opt_apiUrl options with
                    | Some u => if String.eqb u "" then "https://bugboard.ai/api" else u
                    | None => "https://bugboard.ai/api"
                    end;
          agentName := opt_agentName options;
          retryState := {| outputs := []; buildFailures := 0; lastActivity := clock 0 |};
          timeoutMs := 300000 |};
     ticks := 1; pending := []; posted := []; console := [];
     settled := []; unhandled := [] |}.

(** [reportBug] up to its [await]: the POST is issued. *)
Definition reportBug_post (o : Origin) (data : BugData) : M unit :=
  a <- get_this ;;
  now <- Date_now ;;
  axios_post o (apiUrl a ++ "/bugs")%string
    {| body_agentName := agentName a;
       body_input := input data;
       body_logs := logs data;
       body_error := error data;
       timestamp := now |}.

(** [reportBug] from its [await] on, once the sink has answered. *)
Definition reportBug_resume (r : Response) : M BugResult :=
  try_catch
    (match r with
     | Success data_id =>
         a <- get_this ;;
         ret {| id := data_id;
                url := (replace "/api" "" (apiUrl a) ++ "/bugs/" ++ data_id)%string |}
     | Failure e => throw e
     end)
    (fun e => console_error "Failed to report bug to BugBoard AI:" e ;; throw e).

Definition resetRetryDetection : M unit :=
  now <- Date_now ;;
  set_retryState {| outputs := []; buildFailures := 0; lastActivity := now |}.

Definition setTimeout (ms : Z) : M unit :=
  fun w => (Normal tt, with_this (with_timeoutMs ms (this w)) w).

(** [autoReportBug] up to its [await]. *)
Definition autoReportBug (reason : string) : M unit :=
  r <- get_retryState ;;
  let logs := join separator (outputs r) in
  reportBug_post Auto
    {| input := "Auto-detected issue";
       logs := logs;
       error := Some ("Auto-reported: " ++ reason ++ ". Build failures: "
                      ++ Number_toString (buildFailures r))%string |}.

(** [autoReportBug] from its [await] on. *)
Definition autoReportBug_resume (r : Response) : M unit :=
  try_catch
    (reportBug_resume r ;;
     resetRetryDetection)
    (fun e => console_error "Failed to auto-report bug:" e).

Definition checkForStuckAgent : M unit :=
  now <- Date_now ;;
  a <- get_this ;;
  let timeSinceLastActivity := (now - lastActivity (retryState a))%Z in
  if (timeoutMs a <? timeSinceLastActivity)%Z then
    autoReportBug "Agent timed out"
  else
    let outputs := outputs (retryState a) in
    if (3 <=? List.length outputs)%nat then
      let lastThree := slice_last 3 outputs in
      if strict_eq (at_index lastThree 0) (at_index lastThree 1)
         && strict_eq (at_index lastThree 1) (at_index lastThree 2)
      then autoReportBug "Agent stuck in output loop"
      else ret tt
    else ret tt.

Definition trackOutput (output : string) : M unit :=
  modify_retryState (fun r => with_outputs (push (outputs r) output) r) ;;
  now <- Date_now ;;
  modify_retryState (with_lastActivity now) ;;
  r <- get_retryState ;;
  (if (5 <? List.length (outputs r))%nat
   then modify_retryState (fun r => with_outputs (shift (outputs r)) r)
   else ret tt) ;;
  checkForStuckAgent.

Definition trackBuildFailure : M unit :=
  modify_retryState (fun r => with_buildFailures (buildFailures r + 1)%N r) ;;
  now <- Date_now ;;
  modify_retryState (with_lastActivity now) ;;
  r <- get_retryState ;;
  if (3 <=? buildFailures r)%N
  then autoReportBug "Multiple build failures detected"
  else ret tt.

End Detector.

(** ** The event loop around the instance *)

Section EventLoop.

Variable clock : nat -> Z.

Definition remove_nth {A} (i : nat) (l : list A) : list A :=
  (List.firstn i l ++ List.skipn (S i) l)%list.

(** The [i]-th pending request is no longer pending. *)
Definition answered (i : nat) (w : World) : World :=
  {| this := this w; ticks := ticks w; pending := remove_nth i (pending w);
     posted := posted w; console := console w; settled := settled w;
     unhandled := unhandled w |}.

(** The promise of a manual [reportBug] settles: the caller that awaits it
    receives the value or the exception. *)
Definition deliver (c : Completion BugResult) (w : World) : World :=
  {| this := this w; ticks := ticks w; pending := pending w; posted := posted w;
     console := console w; settled := (settled w ++ [c])%list;
     unhandled := unhandled w |}.

(** The promise of [autoReportBug] settles: nobody awaits it, so a
    rejection would go unhandled. *)
Definition drop_promise (c : Completion unit) (w : World) : World :=
  match c with
  | Normal _ => w
  | Throw e =>
      {| this := this w; ticks := ticks w; pending := pending w; posted := posted w;
         console := console w; settled := settled w;
         unhandled := (unhandled w ++ [e])%list |}
  end.

(** The sink answers the [i]-th pending request; the code that awaits it
    resumes and runs to its end. *)
Definition respond (i : nat) (r : Response) (w : World) : World :=
  match List.nth_error (pending w) i with
  | None => w
  | Some rq =>
      let w1 := answered i w in
      match origin rq with
      | Manual => let (c, w2) := reportBug_resume r w1 in deliver c w2
      | Auto => let (c, w2) := autoReportBug_resume clock r w1 in drop_promise c w2
      end
  end.

Inductive Event :=
| Call_trackOutput (output : string)
| Call_trackBuildFailure
| Call_resetRetryDetection
| Call_setTimeout (ms : Z)
| Call_reportBug (data : BugData)
| Sink_responds (i : nat) (r : Response).

Definition step (e : Event) (w : World) : World :=
  match e with
  | Call_trackOutput output => exec (trackOutput clock output) w
  | Call_trackBuildFailure => exec (trackBuildFailure clock) w
  | Call_resetRetryDetection => exec (resetRetryDetection clock) w
  | Call_setTimeout ms => exec (setTimeout ms) w
  | Call_reportBug data => exec (reportBug_post clock Manual data) w
  | Sink_responds i r => respond i r w
  end.

Definition run (es : list Event) (w : World) : World :=
  List.fold_left (fun w e => step e w) es w.

End EventLoop.

(** ** Vocabulary of the properties *)

(** The outputs tracked since the last reset, oldest first, along a run
    that starts in [w] with [acc] tracked so far. A reset is a call of
    [resetRetryDetection] or the one that follows the successful answer
    to an automatic report. *)
Definition resets (e : Event) (w : World) : bool :=
  match e with
  | Call_resetRetryDetection => true
  | Sink_responds i (Success _) =>
      match List.nth_error (pending w) i with
      | Some rq => match origin rq with Auto => true | Manual => false end
      | None => false
      end
  | _ => false
  end.

Fixpoint tracked_since_reset (clock : nat -> Z) (es : list Event) (w : World)
    (acc : list string) : list string :=
  match es with
  | [] => acc
  | e :: es' =>
      tracked_since_reset clock es' (step clock e w)
        (if resets e w then []
         else match e with
              | Call_trackOutput output => (acc ++ [output])%list
              | _ => acc
              end)
  end.

(** The error text that [autoReportBug] submits for a reason. *)
Definition auto_error (reason : string) (failures : N) : string :=
  ("Auto-reported: " ++ reason ++ ". Build failures: " ++ Number_toString failures)%string.

(** Is a request the automatic report of an output loop? *)
Definition is_loop_report (rq : Request) : bool :=
  match origin rq, body_error (req_body rq) with
  | Auto, Some e => String.prefix "Auto-reported: Agent stuck in output loop." e
  | _, _ => false
  end.

Definition loop_reports (w : World) : list Request :=
  List.filter is_loop_report (posted w).

(** [pat] occurs in [s] at index [i]. *)
Definition occurs_at (pat : string) (i : nat) (s : string) : Prop :=
  String.substring i (String.length pat) s = pat.

(** [s] contains [pat]. *)
Definition contains (pat s : string) : Prop :=
  exists pre post, s = (pre ++ pat ++ post)%string.

(** [s] with its first occurrence of [pat] removed, by scanning [s] from
    the left; [s] itself when there is none. *)
Fixpoint drop_chars (n : nat) (s : string) : string :=
  match n, s with
  | S n', String _ s' => drop_chars n' s'
  | _, _ => s
  end.

Fixpoint remove_first_occurrence (pat s : string) : string :=
  if String.prefix pat s then drop_chars (String.length pat) s
  else match s with
       | EmptyString => EmptyString
       | String c s' => String c (remove_first_occurrence pat s')
       end.

(** What the bodies of the methods amount to, as functions on the world. *)

(** Lines 62-68 of [trackOutput]: the history after [push] and the
    conditional [shift]. *)
Definition keep_last_5 (l : list string) : list string :=
  if (5 <? List.length l)%nat then shift l else l.

(** What stays of the old history when one more output is tracked: all
    of it, or all but its oldest entry. *)
Definition front (l : list string) : list string :=
  if (5 <? List.length l + 1)%nat then List.tl l else l.

(** The condition under which [checkForStuckAgent] reports a loop. *)
Definition stuck_in_loop (o : list string) : bool :=
  (3 <=? List.length o)%nat
  && (strict_eq (at_index (slice_last 3 o) 0) (at_index (slice_last 3 o) 1)
      && strict_eq (at_index (slice_last 3 o) 1) (at_index (slice_last 3 o) 2)).

(** The request that [autoReportBug] hands to axios. *)
Definition auto_request (a : BugBoardAgent) (reason : string) (now : Z) : Request :=
  {| origin := Auto;
     req_url := (apiUrl a ++ "/bugs")%string;
     req_body :=
       {| body_agentName := agentName a;
          body_input := "Auto-detected issue";
          body_logs := join separator (outputs (retryState a));
          body_error := Some (auto_error reason (buildFailures (retryState a)));
          timestamp := now |} |}.

Section Bodies.

Variable clock : nat -> Z.

Definition escalate (reason : string) (w : World) : World :=
  send (auto_request (this w) reason (clock (ticks w))) (tick w).

Definition note_output (output : string) (w : World) : World :=
  with_this
    (with_retryState
       {| outputs := keep_last_5 (push (outputs (retryState (this w))) output);
          buildFailures := buildFailures (retryState (this w));
          lastActivity := clock (ticks w) |}
       (this w))
    (tick w).

Definition note_failure (w : World) : World :=
  with_this
    (with_retryState
       {| outputs := outputs (retryState (this w));
          buildFailures := (buildFailures (retryState (this w)) + 1)%N;
          lastActivity := clock (ticks w) |}
       (this w))
    (tick w).

Definition check (w : World) : World :=
  if (timeoutMs (this w) <? clock (ticks w) - lastActivity (retryState (this w)))%Z
  then escalate "Agent timed out" (tick w)
  else if stuck_in_loop (outputs (retryState (this w)))
       then escalate "Agent stuck in output loop" (tick w)
       else tick w.

Definition reset_now (w : World) : World :=
  with_this
    (with_retryState
       {| outputs := []; buildFailures := 0; lastActivity := clock (ticks w) |}
       (this w))
    (tick w).

End Bodies.

(** ** Concrete inputs *)

(** A mocked clock: 0 ms for the first three readings (construction and a
    first call of [trackOutput]), 150 ms from then on. *)
Definition mocked_clock (n : nat) : Z := if (n <? 3)%nat then 0%Z else 150%Z.

(** A clock that stands still. *)
Definition still_clock (n : nat) : Z := 0%Z.

Definition example_options : BugReportOptions :=
  {| opt_apiUrl := Some "http://localhost:3001/api"; opt_agentName := "ExampleAgent" |}.

Definition example_agent (clock : nat -> Z) : World :=
  new_BugBoardAgent clock example_options.

(** An agent whose [apiUrl] has "/api" twice, first inside a longer path
    segment, and one whose [apiUrl] has none. *)
Definition early_api_agent : World :=
  new_BugBoardAgent still_clock
    {| opt_apiUrl := Some "http://h/apiary/api"; opt_agentName := "ExampleAgent" |}.

Definition no_api_agent : World :=
  new_BugBoardAgent still_clock
    {| opt_apiUrl := Some "http://h:3001"; opt_agentName := "ExampleAgent" |}.

(** ** The functions exported beside the class *)

(** [createBugBoardAgent(options)]: [new BugBoardAgent(options)]. *)
Definition createBugBoardAgent (clock : nat -> Z) (options : BugReportOptions) : World :=
  new_BugBoardAgent clock options.

(** The exported function [reportBug(data, options)]: a new agent is made
    for the call and its [reportBug] is started; the promise that the
    function returns is the one of that call. *)
Definition reportBug (clock : nat -> Z) (data : BugData) (options : BugReportOptions)
    : World :=
  exec (reportBug_post clock Manual data) (new_BugBoardAgent clock options).

(** ** More vocabulary *)

(** A request is the automatic report of [reason]. *)
Definition reports_reason (reason : string) (rq : Request) : Prop :=
  origin rq = Auto /\
  exists n, body_error (req_body rq) = Some (auto_error reason n).

(** The calls of [trackBuildFailure] since the last reset, along a run
    that starts in [w] with [acc] counted so far. *)
Fixpoint failures_since_reset (clock : nat -> Z) (es : list Event) (w : World)
    (acc : N) : N :=
  match es with
  | [] => acc
  | e :: es' =>
      failures_since_reset clock es' (step clock e w)
        (if resets e w then 0%N
         else match e with
              | Call_trackBuildFailure => (acc + 1)%N
              | _ => acc
              end)
  end.

(** The timeout in force after the calls [es]: the argument of the last
    [setTimeout], or [t0] when there is none. *)
Definition configured_timeout (es : list Event) (t0 : Z) : Z :=
  List.fold_left
    (fun t e => match e with Call_setTimeout ms => ms | _ => t end) es t0.

(** The two tracking calls among the events. *)
Definition is_trackOutput (e : Event) : bool :=
  match e with Call_trackOutput _ => true | _ => false end.

Definition is_trackBuildFailure (e : Event) : bool :=
  match e with Call_trackBuildFailure => true | _ => false end.

(** Along the run of [es] from [w], every call of [trackOutput] takes its
    two clock readings (lines 63 and 110) at most [timeoutMs] apart, for
    the timeout in force at that call. Nothing is asked of the time that
    passes between one call and the next. *)
Fixpoint calls_in_time (clock : nat -> Z) (es : list Event) (w : World) : Prop :=
  match es with
  | [] => True
  | e :: es' =>
      match e with
      | Call_trackOutput _ =>
          (clock (S (ticks w)) - clock (ticks w) <= timeoutMs (this w))%Z
      | _ => True
      end /\
      calls_in_time clock es' (step clock e w)
  end.

(** A clock that stands still during a call and moves on by 1000 s from
    one call to the next, for a construction, two quiet calls of
    [trackOutput] and calls of [trackOutput] that each post a report. *)
Definition spaced_readings : list Z :=
  [0; 1000000; 1000000; 2000000; 2000000; 3000000; 3000000; 3000000;
   4000000; 4000000; 4000000; 5000000; 5000000; 5000000]%Z.

Definition spaced_clock (n : nat) : Z := List.nth n spaced_readings 6000000%Z.

(** A clock that reads 0 at construction and 1000 s at every reading
    after it. *)
Definition late_start_clock (n : nat) : Z :=
  match n with O => 0%Z | S _ => 1000000%Z end.

(** A clock on which every reading comes 400 s after the one before. *)
Definition slow_clock (n : nat) : Z := (400000 * Z.of_nat n)%Z.

(** ** The model at work *)

Example join_three :
  join ", " ["a"; "b"; "c"] = "a, b, c".
Proof. reflexivity. Qed.

Example replace_first_only :
  replace "/api" "" "http://h/apiary/api" = "http://hary/api" /\
  replace "/api" "" "https://bugboard.ai/api" = "https://bugboard.ai" /\
  replace "/api" "" "http://h:3001" = "http://h:3001".
Proof. repeat split. Qed.

Example Number_toString_12 : Number_toString 12 = "12".
Proof. reflexivity. Qed.

Example default_apiUrl :
  apiUrl (this (new_BugBoardAgent still_clock
                  {| opt_apiUrl := None; opt_agentName := "ExampleAgent" |})) =
    "https://bugboard.ai/api" /\
  apiUrl (this (new_BugBoardAgent still_clock
                  {| opt_apiUrl := Some EmptyString; opt_agentName := "ExampleAgent" |})) =
    "https://bugboard.ai/api".
Proof. split; reflexivity. Qed.

(** Seven distinct outputs: the two oldest are gone. *)
Example seven_outputs :
  outputs (retryState (this
    (run still_clock
       [Call_trackOutput "1"; Call_trackOutput "2"; Call_trackOutput "3";
        Call_trackOutput "4"; Call_trackOutput "5"; Call_trackOutput "6";
        Call_trackOutput "7"]
       (example_agent still_clock)))) = ["3"; "4"; "5"; "6"; "7"].
Proof. reflexivity. Qed.

(** A loop is reported, the sink accepts the report, two more outputs
    follow: only these two have been tracked since the reset. *)
Example outputs_after_auto_reset :
  let es := [Call_trackOutput "a"; Call_trackOutput "a"; Call_trackOutput "a";
             Sink_responds 0 (Success "7");
             Call_trackOutput "b"; Call_trackOutput "c"] in
  tracked_since_reset still_clock es (example_agent still_clock) [] = ["b"; "c"] /\
  outputs (retryState (this (run still_clock es (example_agent still_clock)))) = ["b"; "c"].
Proof. split; reflexivity. Qed.

(** A fourth identical output while the report of the third is in flight
    is reported again. *)
Example fourth_identical_output_in_flight :
  List.length
    (posted (run still_clock
               [Call_trackOutput "a"; Call_trackOutput "a"; Call_trackOutput "a";
                Call_trackOutput "a"]
               (example_agent still_clock))) = 2%nat.
Proof. reflexivity. Qed.

(** ** Lists and strings *)

Lemma tl_skipn {A} (k : nat) (l : list A) :
  List.tl (List.skipn k l) = List.skipn (S k) l.
Proof.
  revert k. induction l as [|x l IH]; intros [|k]; try reflexivity.
  simpl List.skipn at 1. rewrite IH. reflexivity.
Qed.

Lemma slice_last_length {A} (n : nat) (l : list A) :
  (List.length (slice_last n l) <= n)%nat.
Proof. unfold slice_last. rewrite List.length_skipn. lia. Qed.

Lemma keep_last_5_slice (acc : list string) (s : string) :
  keep_last_5 (push (slice_last 5 acc) s) = slice_last 5 (acc ++ [s]).
Proof.
  unfold keep_last_5, push, slice_last, shift.
  rewrite !List.length_app, List.length_skipn. simpl List.length.
  destruct (Nat.le_gt_cases 5 (List.length acc)) as [H|H].
  - replace (List.length acc + 1 - 5)%nat with (S (List.length acc - 5)) by lia.
    remember (List.length acc - 5)%nat as k eqn:Hk.
    destruct (Nat.ltb_spec 5 (List.length acc - k + 1)) as [_|H']; [|lia].
    rewrite <- tl_skipn, List.skipn_app.
    replace (k - List.length acc)%nat with 0%nat by lia.
    destruct (List.skipn k acc) as [|x l] eqn:E; [|reflexivity].
    apply (f_equal (@List.length _)) in E. rewrite List.length_skipn in E.
    simpl in E. lia.
  - replace (List.length acc - 5)%nat with 0%nat by lia.
    replace (List.length acc + 1 - 5)%nat with 0%nat by lia.
    destruct (Nat.ltb_spec 5 (List.length acc - 0 + 1)) as [H'|_]; [lia|].
    reflexivity.
Qed.

(** The loop condition looks at the last three entries only. *)
Lemma stuck_in_loop_snoc3 (l : list string) (x y z : string) :
  stuck_in_loop (l ++ [x; y; z]) = (String.eqb x y && String.eqb y z).
Proof.
  unfold stuck_in_loop, slice_last.
  rewrite List.length_app. simpl List.length.
  replace (3 <=? List.length l + 3)%nat with true
    by (symmetry; apply Nat.leb_le; lia).
  replace (List.length l + 3 - 3)%nat with (List.length l + 0)%nat by lia.
  rewrite List.skipn_app, Nat.add_0_r, List.skipn_all.
  replace (List.length l - List.length l)%nat with 0%nat by lia.
  reflexivity.
Qed.

(** ** The method bodies, run *)

Section Runs.

Variable clock : nat -> Z.

Lemma autoReportBug_run (reason : string) (w : World) :
  autoReportBug clock reason w = (Normal tt, escalate clock reason w).
Proof. reflexivity. Qed.

Lemma checkForStuckAgent_run (w : World) :
  checkForStuckAgent clock w = (Normal tt, check clock w).
Proof.
  unfold checkForStuckAgent, check, stuck_in_loop, bind, Date_now, get_this.
  cbn [tick this ticks].
  destruct (timeoutMs (this w) <? clock (ticks w) - lastActivity (retryState (this w)))%Z;
    [reflexivity|].
  destruct (3 <=? List.length (outputs (retryState (this w))))%nat; [|reflexivity].
  cbn [andb].
  destruct (strict_eq _ _ && strict_eq _ _); reflexivity.
Qed.

Lemma trackOutput_run (output : string) (w : World) :
  trackOutput clock output w = (Normal tt, check clock (note_output clock output w)).
Proof.
  unfold trackOutput, modify_retryState, get_retryState, set_retryState, Date_now, bind, ret.
  unfold note_output, keep_last_5.
  destruct w as [[u n r t] k p q c s h]. simpl.
  destruct (5 <? List.length (push (outputs r) output))%nat;
    rewrite checkForStuckAgent_run; reflexivity.
Qed.

Lemma trackBuildFailure_run (w : World) :
  trackBuildFailure clock w =
  (Normal tt,
   if (3 <=? buildFailures (retryState (this w)) + 1)%N
   then escalate clock "Multiple build failures detected" (note_failure clock w)
   else note_failure clock w).
Proof.
  unfold trackBuildFailure, modify_retryState, get_retryState, set_retryState,
    Date_now, bind, ret.
  destruct w as [[u n r t] k p q c s h]. simpl.
  destruct (3 <=? buildFailures r + 1)%N; reflexivity.
Qed.

Lemma resetRetryDetection_run (w : World) :
  resetRetryDetection clock w = (Normal tt, reset_now clock w).
Proof. reflexivity. Qed.

Lemma reportBug_resume_success (data_id : string) (w : World) :
  reportBug_resume (Success data_id) w =
  (Normal {| id := data_id;
             url := (replace "/api" "" (apiUrl (this w)) ++ "/bugs/" ++ data_id)%string |},
   w).
Proof. reflexivity. Qed.

Lemma reportBug_resume_failure (e : Error) (w : World) :
  reportBug_resume (Failure e) w =
  (Throw e, log "Failed to report bug to BugBoard AI:" e w).
Proof. reflexivity. Qed.

Lemma autoReportBug_resume_success (data_id : string) (w : World) :
  autoReportBug_resume clock (Success data_id) w = (Normal tt, reset_now clock w).
Proof. reflexivity. Qed.

Lemma autoReportBug_resume_failure (e : Error) (w : World) :
  autoReportBug_resume clock (Failure e) w =
  (Normal tt,
   log "Failed to auto-report bug:" e (log "Failed to report bug to BugBoard AI:" e w)).
Proof. reflexivity. Qed.

End Runs.

(** ** One call of [trackOutput] or [trackBuildFailure] *)

Section Calls.

Variable clock : nat -> Z.

(** The world after [trackOutput]: the elapsed time that is compared with
    the timeout runs from the clock reading of line 63 to that of line 110,
    both taken by this same call. *)
Lemma trackOutput_exec (output : string) (w : World) :
  exec (trackOutput clock output) w =
  if (timeoutMs (this w) <? clock (S (ticks w)) - clock (ticks w))%Z
  then escalate clock "Agent timed out" (tick (note_output clock output w))
  else if stuck_in_loop (keep_last_5 (push (outputs (retryState (this w))) output))
       then escalate clock "Agent stuck in output loop" (tick (note_output clock output w))
       else tick (note_output clock output w).
Proof. unfold exec. rewrite trackOutput_run. reflexivity. Qed.

Lemma trackBuildFailure_exec (w : World) :
  exec (trackBuildFailure clock) w =
  if (3 <=? buildFailures (retryState (this w)) + 1)%N
  then escalate clock "Multiple build failures detected" (note_failure clock w)
  else note_failure clock w.
Proof. unfold exec. rewrite trackBuildFailure_run. reflexivity. Qed.

Lemma trackOutput_this (output : string) (w : World) :
  this (exec (trackOutput clock output) w) = this (note_output clock output w).
Proof.
  rewrite trackOutput_exec.
  destruct (_ <? _)%Z; [reflexivity|]. destruct (stuck_in_loop _); reflexivity.
Qed.

Lemma trackBuildFailure_this (w : World) :
  this (exec (trackBuildFailure clock) w) = this (note_failure clock w).
Proof. rewrite trackBuildFailure_exec. destruct (_ <=? _)%N; reflexivity. Qed.

(** What [trackOutput] does is the same whenever the previous tracked
    event took place. *)
Lemma trackOutput_forgets_lastActivity (output : string) (t : Z) (w : World) :
  exec (trackOutput clock output)
    (with_this (with_retryState (with_lastActivity t (retryState (this w))) (this w)) w) =
  exec (trackOutput clock output) w.
Proof. rewrite !trackOutput_exec. reflexivity. Qed.

End Calls.

(** ** The timeout scenario *)

(** C1 (the code departs from the claim). A detector with its timeout set
    to 100 ms tracks "a" and later tracks "a" again. Whatever time passes
    between the two calls (150 ms, say), if each call takes its two clock
    readings within 100 ms of each other then no report is posted at all:
    [trackOutput] overwrites [lastActivity] with the current time before
    [checkForStuckAgent] subtracts it from the current time, so the time
    since the previous tracked event never enters the comparison. *)
Theorem timeout_scenario_posts_no_report (clock : nat -> Z) (options : BugReportOptions) :
  (clock 2%nat - clock 1%nat <= 100)%Z ->
  (clock 4%nat - clock 3%nat <= 100)%Z ->
  posted (run clock [Call_setTimeout 100; Call_trackOutput "a"; Call_trackOutput "a"]
            (new_BugBoardAgent clock options)) = [].
Proof.
  intros H1 H2. unfold run. cbn [List.fold_left step].
  rewrite !trackOutput_exec. cbn.
  destruct (Z.ltb_spec 100 (clock 2%nat - clock 1%nat)) as [C1|_]; [lia|].
  cbn.
  destruct (Z.ltb_spec 100 (clock 4%nat - clock 3%nat)) as [C2|_]; [lia|].
  reflexivity.
Qed.

Lemma timeout_scenario_witness :
  (mocked_clock 3 - mocked_clock 1 = 150)%Z /\
  posted (run mocked_clock
            [Call_setTimeout 100; Call_trackOutput "a"; Call_trackOutput "a"]
            (example_agent mocked_clock)) = [].
Proof.
  split; [reflexivity|].
  apply (timeout_scenario_posts_no_report mocked_clock); vm_compute; discriminate.
Defined.

(** ** The sink answers *)

Section Answers.

Variable clock : nat -> Z.

Lemma respond_manual (i : nat) (rq : Request) (r : Response) (w : World) :
  List.nth_error (pending w) i = Some rq -> origin rq = Manual ->
  respond clock i r w =
  match r with
  | Success data_id =>
      deliver
        (Normal {| id := data_id;
                   url := (replace "/api" "" (apiUrl (this w)) ++ "/bugs/" ++ data_id)%string |})
        (answered i w)
  | Failure e =>
      deliver (Throw e) (log "Failed to report bug to BugBoard AI:" e (answered i w))
  end.
Proof.
  intros Hi Ho. unfold respond. rewrite Hi, Ho. destruct r; reflexivity.
Qed.

Lemma respond_auto (i : nat) (rq : Request) (r : Response) (w : World) :
  List.nth_error (pending w) i = Some rq -> origin rq = Auto ->
  respond clock i r w =
  match r with
  | Success _ => reset_now clock (answered i w)
  | Failure e =>
      log "Failed to auto-report bug:" e
        (log "Failed to report bug to BugBoard AI:" e (answered i w))
  end.
Proof.
  intros Hi Ho. unfold respond. rewrite Hi, Ho. destruct r; reflexivity.
Qed.

Lemma respond_out_of_range (i : nat) (r : Response) (w : World) :
  List.nth_error (pending w) i = None -> respond clock i r w = w.
Proof. intros Hi. unfold respond. rewrite Hi. reflexivity. Qed.

End Answers.

(** ** Completion of an automatic report *)

(** C2, as the code has it. When the sink answers an automatic report: on
    success the detection state returns to its initial form (no outputs, no
    build failures, [lastActivity] the current time); on failure the error
    is only logged and the detection state stays exactly as it was. *)
Theorem auto_report_completion (clock : nat -> Z) (w : World) (i : nat)
    (rq : Request) (r : Response) :
  List.nth_error (pending w) i = Some rq ->
  origin rq = Auto ->
  retryState (this (respond clock i r w)) =
  match r with
  | Success _ => {| outputs := []; buildFailures := 0; lastActivity := clock (ticks w) |}
  | Failure _ => retryState (this w)
  end.
Proof.
  intros Hi Ho. rewrite (respond_auto clock i rq r w Hi Ho).
  destruct r; reflexivity.
Qed.

Lemma auto_report_completion_witness :
  let w := run still_clock
             [Call_trackBuildFailure; Call_trackBuildFailure; Call_trackBuildFailure]
             (example_agent still_clock) in
  retryState (this (respond still_clock 0 (Success "7") w)) =
    {| outputs := []; buildFailures := 0; lastActivity := 0 |} /\
  retryState (this (respond still_clock 0 (Failure "503") w)) = retryState (this w).
Proof.
  split.
  - apply (auto_report_completion still_clock _ 0
             (auto_request
                (with_retryState {| outputs := []; buildFailures := 3; lastActivity := 0 |}
                   (this (example_agent still_clock)))
                "Multiple build failures detected" 0)
             (Success "7")); reflexivity.
  - apply (auto_report_completion still_clock _ 0
             (auto_request
                (with_retryState {| outputs := []; buildFailures := 3; lastActivity := 0 |}
                   (this (example_agent still_clock)))
                "Multiple build failures detected" 0)
             (Failure "503")); reflexivity.
Defined.

(** C2 as stated fails: an automatic report that the sink rejects leaves
    the outputs and the failure counter in place. *)
Lemma failed_auto_report_keeps_state :
  let w := run still_clock
             [Call_trackBuildFailure; Call_trackOutput "a"; Call_trackOutput "a";
              Call_trackOutput "a"]
             (example_agent still_clock) in
  List.map origin (pending w) = [Auto] /\
  outputs (retryState (this (respond still_clock 0 (Failure "503") w))) = ["a"; "a"; "a"] /\
  buildFailures (retryState (this (respond still_clock 0 (Failure "503") w))) = 1%N.
Proof. vm_compute. repeat split. Qed.

(** ** Repeated outputs *)

Section Repetition.

Variable clock : nat -> Z.

(** A call of [trackOutput] whose two clock readings are within the
    timeout of each other, by the outcome of the loop check. *)
Lemma trackOutput_quiet (output : string) (w : World) :
  (clock (S (ticks w)) - clock (ticks w) <= timeoutMs (this w))%Z ->
  stuck_in_loop (keep_last_5 (push (outputs (retryState (this w))) output)) = false ->
  exec (trackOutput clock output) w = tick (note_output clock output w).
Proof.
  intros Ht Hs. rewrite trackOutput_exec, Hs.
  destruct (Z.ltb_spec (timeoutMs (this w)) (clock (S (ticks w)) - clock (ticks w)));
    [lia | reflexivity].
Qed.

Lemma trackOutput_loop (output : string) (w : World) :
  (clock (S (ticks w)) - clock (ticks w) <= timeoutMs (this w))%Z ->
  stuck_in_loop (keep_last_5 (push (outputs (retryState (this w))) output)) = true ->
  exec (trackOutput clock output) w =
  escalate clock "Agent stuck in output loop" (tick (note_output clock output w)).
Proof.
  intros Ht Hs. rewrite trackOutput_exec, Hs.
  destruct (Z.ltb_spec (timeoutMs (this w)) (clock (S (ticks w)) - clock (ticks w)));
    [lia | reflexivity].
Qed.

Lemma nth_error_snoc {A} (l : list A) (x : A) :
  List.nth_error (l ++ [x]) (List.length l) = Some x.
Proof.
  rewrite List.nth_error_app2 by lia. rewrite Nat.sub_diag. reflexivity.
Qed.

End Repetition.

(** C3, as the code has it. From a freshly reset state, three calls of
    [trackOutput] with the same text, each taking its two clock readings
    within the timeout of each other, post exactly one request: an
    automatic report whose error text carries the reason
    "Agent stuck in output loop" and whose logs are the three outputs.
    When the sink answers that report with success, the detection state
    (outputs, buildFailures) is empty again, and nothing else is posted. *)
Theorem three_identical_outputs_report_once (clock : nat -> Z) (w : World)
    (s data_id : string) :
  outputs (retryState (this w)) = [] ->
  buildFailures (retryState (this w)) = 0%N ->
  (clock (1 + ticks w)%nat - clock (ticks w) <= timeoutMs (this w))%Z ->
  (clock (3 + ticks w)%nat - clock (2 + ticks w)%nat <= timeoutMs (this w))%Z ->
  (clock (5 + ticks w)%nat - clock (4 + ticks w)%nat <= timeoutMs (this w))%Z ->
  let w3 := run clock [Call_trackOutput s; Call_trackOutput s; Call_trackOutput s] w in
  exists rq,
    posted w3 = (posted w ++ [rq])%list /\
    pending w3 = (pending w ++ [rq])%list /\
    origin rq = Auto /\
    body_error (req_body rq) =
      Some "Auto-reported: Agent stuck in output loop. Build failures: 0" /\
    body_logs (req_body rq) = join separator [s; s; s] /\
    let w4 := respond clock (List.length (pending w)) (Success data_id) w3 in
    outputs (retryState (this w4)) = [] /\
    buildFailures (retryState (this w4)) = 0%N /\
    posted w4 = posted w3.
Proof.
  intros Ho Hb H1 H2 H3 w3.
  destruct w as [[u n [o b l] T] t p q c se h]. simpl in Ho, Hb, H1, H2, H3.
  subst o b.
  assert (E1 : step clock (Call_trackOutput s)
                 {| this := {| apiUrl := u; agentName := n;
                               retryState := {| outputs := []; buildFailures := 0;
                                                lastActivity := l |};
                               timeoutMs := T |};
                    ticks := t; pending := p; posted := q; console := c;
                    settled := se; unhandled := h |} =
               {| this := {| apiUrl := u; agentName := n;
                             retryState := {| outputs := [s]; buildFailures := 0;
                                              lastActivity := clock t |};
                             timeoutMs := T |};
                  ticks := S (S t); pending := p; posted := q; console := c;
                  settled := se; unhandled := h |}).
  { simpl step. rewrite trackOutput_quiet; [reflexivity | exact H1 | reflexivity]. }
  assert (E2 : step clock (Call_trackOutput s)
                 {| this := {| apiUrl := u; agentName := n;
                               retryState := {| outputs := [s]; buildFailures := 0;
                                                lastActivity := clock t |};
                               timeoutMs := T |};
                    ticks := S (S t); pending := p; posted := q; console := c;
                    settled := se; unhandled := h |} =
               {| this := {| apiUrl := u; agentName := n;
                             retryState := {| outputs := [s; s]; buildFailures := 0;
                                              lastActivity := clock (S (S t)) |};
                             timeoutMs := T |};
                  ticks := S (S (S (S t))); pending := p; posted := q; console := c;
                  settled := se; unhandled := h |}).
  { simpl step. rewrite trackOutput_quiet; [reflexivity | exact H2 | reflexivity]. }
  pose (a3 := {| apiUrl := u; agentName := n;
                 retryState := {| outputs := [s; s; s]; buildFailures := 0;
                                  lastActivity := clock (S (S (S (S t)))) |};
                 timeoutMs := T |}).
  pose (rq := auto_request a3 "Agent stuck in output loop"
                (clock (S (S (S (S (S (S t)))))))).
  assert (E3 : w3 =
               {| this := a3; ticks := S (S (S (S (S (S (S t))))));
                  pending := (p ++ [rq])%list; posted := (q ++ [rq])%list; console := c;
                  settled := se; unhandled := h |}).
  { unfold w3, run. cbn [List.fold_left]. rewrite E1, E2. simpl step.
    rewrite trackOutput_loop; [reflexivity | exact H3 |].
    unfold stuck_in_loop. simpl. rewrite String.eqb_refl. reflexivity. }
  exists rq. rewrite E3. cbn [posted pending].
  do 5 (split; [reflexivity|]).
  rewrite (respond_auto clock (List.length p) rq (Success data_id));
    [repeat split | apply nth_error_snoc | reflexivity].
Qed.

Lemma three_identical_outputs_witness :
  let w := example_agent still_clock in
  let w3 := run still_clock
              [Call_trackOutput "a"; Call_trackOutput "a"; Call_trackOutput "a"] w in
  exists rq,
    posted w3 = (posted w ++ [rq])%list /\
    pending w3 = (pending w ++ [rq])%list /\
    origin rq = Auto /\
    body_error (req_body rq) =
      Some "Auto-reported: Agent stuck in output loop. Build failures: 0" /\
    body_logs (req_body rq) = join separator ["a"; "a"; "a"] /\
    let w4 := respond still_clock (List.length (pending w)) (Success "7") w3 in
    outputs (retryState (this w4)) = [] /\
    buildFailures (retryState (this w4)) = 0%N /\
    posted w4 = posted w3.
Proof.
  apply (three_identical_outputs_report_once still_clock (example_agent still_clock)
           "a" "7");
    [reflexivity | reflexivity | vm_compute; discriminate | vm_compute; discriminate
    | vm_compute; discriminate].
Defined.

(** C3 as stated fails on two counts. The reason that the code submits is
    spelled "Agent stuck in output loop", not "agent stuck in output loop".
    And not every detector reports a loop: the timeout check comes first,
    so with the timeout set below zero each of the three calls posts an
    "Agent timed out" report and none reports a loop. *)
Lemma loop_report_spelling_and_timeout_first :
  List.map (fun rq => body_error (req_body rq))
    (posted (run still_clock
               [Call_trackOutput "a"; Call_trackOutput "a"; Call_trackOutput "a"]
               (example_agent still_clock))) =
    [Some "Auto-reported: Agent stuck in output loop. Build failures: 0"] /\
  "Auto-reported: Agent stuck in output loop. Build failures: 0" <>
    "Auto-reported: agent stuck in output loop. Build failures: 0" /\
  List.map (fun rq => body_error (req_body rq))
    (posted (run still_clock
               [Call_setTimeout (-1); Call_trackOutput "a"; Call_trackOutput "a";
                Call_trackOutput "a"]
               (example_agent still_clock))) =
    [Some "Auto-reported: Agent timed out. Build failures: 0";
     Some "Auto-reported: Agent timed out. Build failures: 0";
     Some "Auto-reported: Agent timed out. Build failures: 0"].
Proof. vm_compute. repeat split. discriminate. Qed.

(** ** Build failures *)

Section BuildFailures.

Variable clock : nat -> Z.

Lemma trackBuildFailure_below (w : World) :
  (buildFailures (retryState (this w)) + 1 < 3)%N ->
  exec (trackBuildFailure clock) w = note_failure clock w.
Proof.
  intros H. rewrite trackBuildFailure_exec.
  destruct (N.leb_spec 3 (buildFailures (retryState (this w)) + 1)); [lia | reflexivity].
Qed.

Lemma trackBuildFailure_reached (w : World) :
  (3 <= buildFailures (retryState (this w)) + 1)%N ->
  exec (trackBuildFailure clock) w =
  escalate clock "Multiple build failures detected" (note_failure clock w).
Proof.
  intros H. rewrite trackBuildFailure_exec.
  destruct (N.leb_spec 3 (buildFailures (retryState (this w)) + 1)); [reflexivity | lia].
Qed.

End BuildFailures.

(** C4, as the code has it. Every call of [trackBuildFailure] increments
    [buildFailures] by one and sets [lastActivity] to the current time; when
    the incremented counter is at least 3 the call itself posts one
    automatic report, whose error text carries the reason
    "Multiple build failures detected" and the counter, and otherwise it
    posts nothing. From a counter of 0, three calls post exactly one report;
    when the sink has answered it with success the counter is 0, and a
    fourth call made after that posts nothing. *)
Theorem build_failures_report_once (clock : nat -> Z) (w : World) :
  (let w' := exec (trackBuildFailure clock) w in
   let n := (buildFailures (retryState (this w)) + 1)%N in
   outcome (trackBuildFailure clock) w = Normal tt /\
   buildFailures (retryState (this w')) = n /\
   lastActivity (retryState (this w')) = clock (ticks w) /\
   ((3 <= n)%N ->
    exists rq,
      posted w' = (posted w ++ [rq])%list /\
      pending w' = (pending w ++ [rq])%list /\
      origin rq = Auto /\
      body_error (req_body rq) =
        Some ("Auto-reported: Multiple build failures detected. Build failures: "
              ++ Number_toString n)%string) /\
   ((n < 3)%N -> posted w' = posted w /\ pending w' = pending w)) /\
  (buildFailures (retryState (this w)) = 0%N ->
   let w3 := run clock
               [Call_trackBuildFailure; Call_trackBuildFailure; Call_trackBuildFailure] w in
   exists rq,
     posted w3 = (posted w ++ [rq])%list /\
     pending w3 = (pending w ++ [rq])%list /\
     origin rq = Auto /\
     body_error (req_body rq) =
       Some "Auto-reported: Multiple build failures detected. Build failures: 3" /\
     forall data_id,
       let w4 := respond clock (List.length (pending w)) (Success data_id) w3 in
       buildFailures (retryState (this w4)) = 0%N /\
       posted w4 = posted w3 /\
       posted (step clock Call_trackBuildFailure w4) = posted w3).
Proof.
  split.
  - cbv zeta. split; [unfold outcome; rewrite trackBuildFailure_run; reflexivity|].
    rewrite trackBuildFailure_this.
    split; [reflexivity|]. split; [reflexivity|]. split.
    + intros H. rewrite (trackBuildFailure_reached clock w H).
      eexists. repeat split.
    + intros H. rewrite (trackBuildFailure_below clock w H). split; reflexivity.
  - intros Hb w3.
    destruct w as [[u n [o b l] T] t p q c se h]. simpl in Hb. subst b.
    pose (a3 := {| apiUrl := u; agentName := n;
                   retryState := {| outputs := o; buildFailures := 3;
                                    lastActivity := clock (S (S t)) |};
                   timeoutMs := T |}).
    pose (rq := auto_request a3 "Multiple build failures detected" (clock (S (S (S t))))).
    assert (E3 : w3 =
                 {| this := a3; ticks := S (S (S (S t)));
                    pending := (p ++ [rq])%list; posted := (q ++ [rq])%list; console := c;
                    settled := se; unhandled := h |}).
    { unfold w3, run. cbn [List.fold_left step].
      match goal with
      | |- context [exec _ (exec _ (exec _ ?w0))] =>
          rewrite (trackBuildFailure_below clock w0) by (simpl; lia);
          rewrite (trackBuildFailure_below clock (note_failure clock w0))
            by (simpl; lia);
          rewrite (trackBuildFailure_reached clock
                     (note_failure clock (note_failure clock w0)))
            by (simpl; lia)
      end.
      reflexivity. }
    exists rq. rewrite E3. cbn [posted pending].
    do 4 (split; [reflexivity|]).
    intros data_id.
    rewrite (respond_auto clock (List.length p) rq (Success data_id));
      [| apply nth_error_snoc | reflexivity].
    split; [reflexivity|]. split; [reflexivity|].
    cbn [step]. rewrite (trackBuildFailure_below clock) by (simpl; lia).
    reflexivity.
Qed.

Lemma build_failures_witness :
  let w := example_agent still_clock in
  (let w2 := run still_clock [Call_trackBuildFailure; Call_trackBuildFailure] w in
   exists rq,
     posted (exec (trackBuildFailure still_clock) w2) = (posted w2 ++ [rq])%list /\
     pending (exec (trackBuildFailure still_clock) w2) = (pending w2 ++ [rq])%list /\
     origin rq = Auto /\
     body_error (req_body rq) =
       Some ("Auto-reported: Multiple build failures detected. Build failures: "
             ++ Number_toString 3)%string) /\
  (posted (exec (trackBuildFailure still_clock) w) = posted w /\
   pending (exec (trackBuildFailure still_clock) w) = pending w) /\
  (let w3 := run still_clock
               [Call_trackBuildFailure; Call_trackBuildFailure; Call_trackBuildFailure] w in
   exists rq,
     posted w3 = (posted w ++ [rq])%list /\
     pending w3 = (pending w ++ [rq])%list /\
     origin rq = Auto /\
     body_error (req_body rq) =
       Some "Auto-reported: Multiple build failures detected. Build failures: 3" /\
     forall data_id,
       let w4 := respond still_clock (List.length (pending w)) (Success data_id) w3 in
       buildFailures (retryState (this w4)) = 0%N /\
       posted w4 = posted w3 /\
       posted (step still_clock Call_trackBuildFailure w4) = posted w3).
Proof.
  split; [|split].
  - apply (proj1 (proj2 (proj2 (proj2 (proj1
             (build_failures_report_once still_clock
                (run still_clock [Call_trackBuildFailure; Call_trackBuildFailure]
                   (example_agent still_clock)))))))).
    vm_compute. discriminate.
  - apply (proj2 (proj2 (proj2 (proj2 (proj1
             (build_failures_report_once still_clock (example_agent still_clock))))))).
    reflexivity.
  - apply (proj2 (build_failures_report_once still_clock (example_agent still_clock))).
    reflexivity.
Defined.

(** C4 as stated fails on two counts. The reason that the code submits is
    spelled "Multiple build failures detected". And the counter is reset
    only when the sink's answer arrives: a fourth call made while the
    report of the third is still in flight finds the counter at 4 and posts
    a second report, although the sink then answers both with success. *)
Lemma fourth_failure_in_flight_reports_again :
  List.map (fun rq => body_error (req_body rq))
    (posted (run still_clock
               [Call_trackBuildFailure; Call_trackBuildFailure; Call_trackBuildFailure;
                Call_trackBuildFailure;
                Sink_responds 0 (Success "1"); Sink_responds 0 (Success "2")]
               (example_agent still_clock))) =
    [Some "Auto-reported: Multiple build failures detected. Build failures: 3";
     Some "Auto-reported: Multiple build failures detected. Build failures: 4"] /\
  "Auto-reported: Multiple build failures detected. Build failures: 3" <>
    "Auto-reported: multiple build failures detected. Build failures: 3".
Proof. vm_compute. split; [reflexivity | discriminate]. Qed.

(** ** The output history *)

Section History.

Variable clock : nat -> Z.

(** One event keeps the history equal to the last five outputs tracked
    since the last reset. *)
Lemma step_history (e : Event) (w : World) (acc : list string) :
  outputs (retryState (this w)) = slice_last 5 acc ->
  outputs (retryState (this (step clock e w))) =
  slice_last 5
    (if resets e w then []
     else match e with
          | Call_trackOutput output => (acc ++ [output])%list
          | _ => acc
          end).
Proof.
  intros Inv. destruct e as [output| | |ms|data|i r]; cbn [step resets].
  - rewrite trackOutput_this. cbn. rewrite Inv. apply keep_last_5_slice.
  - rewrite trackBuildFailure_this. exact Inv.
  - reflexivity.
  - exact Inv.
  - exact Inv.
  - destruct (List.nth_error (pending w) i) as [rq|] eqn:Hi.
    + destruct (origin rq) eqn:Ho.
      * rewrite (respond_manual clock i rq r w Hi Ho).
        destruct r; exact Inv.
      * rewrite (respond_auto clock i rq r w Hi Ho).
        destruct r; [reflexivity | exact Inv].
    + rewrite (respond_out_of_range clock i r w Hi).
      destruct r; exact Inv.
Qed.

Lemma run_history (es : list Event) (w : World) (acc : list string) :
  outputs (retryState (this w)) = slice_last 5 acc ->
  outputs (retryState (this (run clock es w))) =
  slice_last 5 (tracked_since_reset clock es w acc).
Proof.
  revert w acc. induction es as [|e es IH]; intros w acc Inv.
  - exact Inv.
  - cbn [run List.fold_left tracked_since_reset].
    apply IH. apply step_history. exact Inv.
Qed.

End History.

(** C5. Whatever sequence of calls and sink answers a detector goes
    through after its construction, its output history has at most 5
    entries and is exactly the last 5 (or fewer, if fewer were tracked) of
    the outputs tracked since the last reset, in the order in which they
    arrived. *)
Theorem outputs_bounded_fifo (clock : nat -> Z) (options : BugReportOptions)
    (es : list Event) :
  let w := run clock es (new_BugBoardAgent clock options) in
  (List.length (outputs (retryState (this w))) <= 5)%nat /\
  outputs (retryState (this w)) =
    slice_last 5 (tracked_since_reset clock es (new_BugBoardAgent clock options) []).
Proof.
  cbv zeta.
  assert (H : outputs (retryState (this (run clock es (new_BugBoardAgent clock options)))) =
              slice_last 5
                (tracked_since_reset clock es (new_BugBoardAgent clock options) []))
    by (apply run_history; reflexivity).
  split; [rewrite H; apply slice_last_length | exact H].
Qed.

(** ** Failures of the sink *)

(** C6. A failure of the sink makes [reportBug] throw, and the caller of a
    manual [reportBug] receives that exception. The same failure of an
    automatic report ends inside [autoReportBug]: it is written to the
    console by both handlers, [autoReportBug] completes normally, no
    caller receives anything and no rejection is left unhandled. The calls
    of [trackOutput] and [trackBuildFailure] themselves always complete
    normally. *)
Theorem sink_failure_propagation (clock : nat -> Z) (w : World) (e : Error) :
  outcome (reportBug_resume (Failure e)) w = Throw e /\
  outcome (autoReportBug_resume clock (Failure e)) w = Normal tt /\
  (forall i rq,
     List.nth_error (pending w) i = Some rq ->
     let w' := respond clock i (Failure e) w in
     match origin rq with
     | Manual => settled w' = (settled w ++ [Throw e])%list
     | Auto =>
         settled w' = settled w /\
         unhandled w' = unhandled w /\
         console w' =
           (console w ++ [("Failed to report bug to BugBoard AI:", e);
                          ("Failed to auto-report bug:", e)])%list
     end) /\
  (forall output, outcome (trackOutput clock output) w = Normal tt) /\
  outcome (trackBuildFailure clock) w = Normal tt.
Proof.
  split; [reflexivity|]. split; [reflexivity|]. split.
  - intros i rq Hi w'. subst w'. destruct (origin rq) eqn:Ho.
    + rewrite (respond_manual clock i rq (Failure e) w Hi Ho). reflexivity.
    + rewrite (respond_auto clock i rq (Failure e) w Hi Ho).
      split; [reflexivity|]. split; [reflexivity|].
      cbn. rewrite <- List.app_assoc. reflexivity.
  - split.
    + intros output. unfold outcome. rewrite trackOutput_run. reflexivity.
    + unfold outcome. rewrite trackBuildFailure_run. reflexivity.
Qed.

Lemma sink_failure_witness :
  (let w := run still_clock
              [Call_reportBug {| input := "x"; logs := "y"; error := None |}]
              (example_agent still_clock) in
   settled (respond still_clock 0 (Failure "503") w) = (settled w ++ [Throw "503"])%list) /\
  (let w := run still_clock
              [Call_trackBuildFailure; Call_trackBuildFailure; Call_trackBuildFailure]
              (example_agent still_clock) in
   let w' := respond still_clock 0 (Failure "503") w in
   settled w' = settled w /\
   unhandled w' = unhandled w /\
   console w' =
     (console w ++ [("Failed to report bug to BugBoard AI:", "503");
                    ("Failed to auto-report bug:", "503")])%list).
Proof.
  split.
  - exact (proj1 (proj2 (proj2
             (sink_failure_propagation still_clock
                (run still_clock
                   [Call_reportBug {| input := "x"; logs := "y"; error := None |}]
                   (example_agent still_clock))
                "503")))
             0
             {| origin := Manual;
                req_url := "http://localhost:3001/api/bugs";
                req_body := {| body_agentName := "ExampleAgent"; body_input := "x";
                               body_logs := "y"; body_error := None; timestamp := 0 |} |}
             eq_refl).
  - exact (proj1 (proj2 (proj2
             (sink_failure_propagation still_clock
                (run still_clock
                   [Call_trackBuildFailure; Call_trackBuildFailure; Call_trackBuildFailure]
                   (example_agent still_clock))
                "503")))
             0
             (auto_request
                (with_retryState {| outputs := []; buildFailures := 3; lastActivity := 0 |}
                   (this (example_agent still_clock)))
                "Multiple build failures detected" 0)
             eq_refl).
Defined.

(** ** The result of a manual report *)

Lemma contains_suffix (pre pat : string) : contains pat (pre ++ pat)%string.
Proof.
  exists pre, EmptyString.
  f_equal. induction pat as [|c pat IH]; simpl; [reflexivity | f_equal; exact IH].
Qed.

Lemma append_assoc (a b c : string) : ((a ++ b) ++ c = a ++ (b ++ c))%string.
Proof. induction a as [|x a IH]; simpl; [reflexivity | f_equal; exact IH]. Qed.

(** C7. A manual [reportBug] that the sink answers with success and the
    body [{id: "42"}] resolves, for its caller, to a result whose [id] is
    "42" and whose [url] contains "42": the configured [apiUrl] with its
    first "/api" cut out, followed by "/bugs/" and the identifier. *)
Theorem reportBug_result_42 (clock : nat -> Z) (w : World) (data : BugData) :
  let w1 := step clock (Call_reportBug data) w in
  let w2 := step clock (Sink_responds (List.length (pending w)) (Success "42")) w1 in
  exists u,
    settled w2 = (settled w ++ [Normal {| id := "42"; url := u |}])%list /\
    u = (replace "/api" "" (apiUrl (this w)) ++ "/bugs/" ++ "42")%string /\
    contains "42" u.
Proof.
  cbv zeta. cbn [step].
  eexists. split; [|split; [reflexivity|]].
  - rewrite (respond_manual clock (List.length (pending w))
               {| origin := Manual;
                  req_url := (apiUrl (this w) ++ "/bugs")%string;
                  req_body := {| body_agentName := agentName (this w);
                                 body_input := input data; body_logs := logs data;
                                 body_error := error data;
                                 timestamp := clock (ticks w) |} |}
               (Success "42"));
      [reflexivity | apply nth_error_snoc | reflexivity].
  - rewrite <- append_assoc. apply contains_suffix.
Qed.

(** ** What a call leaves alone *)

(** C9. [trackOutput] leaves [buildFailures] as it was and
    [trackBuildFailure] leaves [outputs] as it was, whether or not the call
    escalates (the reset that follows a report happens when the sink
    answers, not inside the call). A manual [reportBug] changes no field
    of the detection state, neither when it is called nor when the sink
    answers it, with success or with failure. *)
Theorem frame_of_calls (clock : nat -> Z) (w : World) :
  (forall output,
     buildFailures (retryState (this (exec (trackOutput clock output) w))) =
     buildFailures (retryState (this w))) /\
  outputs (retryState (this (exec (trackBuildFailure clock) w))) =
    outputs (retryState (this w)) /\
  (forall data,
     retryState (this (step clock (Call_reportBug data) w)) = retryState (this w)) /\
  (forall i rq r,
     List.nth_error (pending w) i = Some rq ->
     origin rq = Manual ->
     retryState (this (step clock (Sink_responds i r) w)) = retryState (this w)).
Proof.
  split; [|split; [|split]].
  - intros output. rewrite trackOutput_this. reflexivity.
  - rewrite trackBuildFailure_this. reflexivity.
  - intros data. reflexivity.
  - intros i rq r Hi Ho. cbn [step].
    rewrite (respond_manual clock i rq r w Hi Ho). destruct r; reflexivity.
Qed.

Lemma frame_of_calls_witness :
  let w := run still_clock
             [Call_trackOutput "a"; Call_trackBuildFailure;
              Call_reportBug {| input := "x"; logs := "y"; error := None |}]
             (example_agent still_clock) in
  retryState (this (step still_clock (Sink_responds 0 (Failure "503")) w)) =
    retryState (this w) /\
  retryState (this (step still_clock (Sink_responds 0 (Success "42")) w)) =
    retryState (this w).
Proof.
  split.
  - apply (proj2 (proj2 (proj2 (frame_of_calls still_clock _))) 0
             {| origin := Manual;
                req_url := "http://localhost:3001/api/bugs";
                req_body := {| body_agentName := "ExampleAgent"; body_input := "x";
                               body_logs := "y"; body_error := None; timestamp := 0 |} |}
             (Failure "503")); reflexivity.
  - apply (proj2 (proj2 (proj2 (frame_of_calls still_clock _))) 0
             {| origin := Manual;
                req_url := "http://localhost:3001/api/bugs";
                req_body := {| body_agentName := "ExampleAgent"; body_input := "x";
                               body_logs := "y"; body_error := None; timestamp := 0 |} |}
             (Success "42")); reflexivity.
Defined.

(** ** The url of a report *)

Lemma substring_whole (s : string) : String.substring 0 (String.length s) s = s.
Proof. induction s as [|c s IH]; simpl; [reflexivity | f_equal; exact IH]. Qed.

Lemma substring_drop (n : nat) (s : string) :
  String.substring n (String.length s - n) s = drop_chars n s.
Proof.
  revert s. induction n as [|n IH]; intros s.
  - rewrite Nat.sub_0_r. destruct s; [reflexivity | apply substring_whole].
  - destruct s as [|c s]; [reflexivity | apply IH].
Qed.

(** [replace] with an empty replacement removes the first occurrence. *)
Lemma replace_removes_first (pat s : string) :
  replace pat "" s = remove_first_occurrence pat s.
Proof.
  induction s as [|c s IH].
  - destruct pat; reflexivity.
  - unfold replace in *. cbn [String.index remove_first_occurrence].
    destruct (String.prefix pat (String c s)) eqn:Hp.
    + change (String.substring 0 0 (String c s)) with EmptyString.
      change (0 + String.length pat)%nat with (String.length pat).
      cbn [String.append]. apply substring_drop.
    + destruct (String.index 0 pat s) as [n|] eqn:Hi.
      * rewrite <- IH. reflexivity.
      * rewrite <- IH. reflexivity.
Qed.

Lemma occurs_at_tail (pat : string) (j : nat) (c : ascii) (s : string) :
  occurs_at pat (S j) (String c s) <-> occurs_at pat j s.
Proof. unfold occurs_at. reflexivity. Qed.

Lemma remove_first_absent (pat s : string) :
  (forall j, ~ occurs_at pat j s) -> remove_first_occurrence pat s = s.
Proof.
  induction s as [|c s IH]; intros H; cbn [remove_first_occurrence].
  - destruct (String.prefix pat "") eqn:Hp; [|reflexivity].
    apply String.prefix_correct in Hp. exfalso. exact (H 0%nat Hp).
  - destruct (String.prefix pat (String c s)) eqn:Hp.
    + apply String.prefix_correct in Hp. exfalso. exact (H 0%nat Hp).
    + f_equal. apply IH. intros j Hj. apply (H (S j)). apply occurs_at_tail. exact Hj.
Qed.

Lemma prefix_append (pat post : string) : String.prefix pat (pat ++ post) = true.
Proof.
  induction pat as [|c pat IH]; simpl; [destruct post; reflexivity|].
  destruct (ascii_dec c c); [exact IH | congruence].
Qed.

Lemma drop_chars_append (pat post : string) :
  drop_chars (String.length pat) (pat ++ post) = post.
Proof.
  induction pat as [|c pat IH]; simpl; [destruct post; reflexivity | exact IH].
Qed.

Lemma remove_first_occurrence_eq (pat s : string) :
  remove_first_occurrence pat s =
  if String.prefix pat s then drop_chars (String.length pat) s
  else match s with
       | EmptyString => EmptyString
       | String c s' => String c (remove_first_occurrence pat s')
       end.
Proof. destruct s; reflexivity. Qed.

Lemma remove_first_at (pat pre post : string) :
  (forall j, (j < String.length pre)%nat -> ~ occurs_at pat j (pre ++ pat ++ post)) ->
  remove_first_occurrence pat (pre ++ pat ++ post) = (pre ++ post)%string.
Proof.
  induction pre as [|c pre IH]; intros H.
  - cbn [String.append].
    rewrite remove_first_occurrence_eq, prefix_append. apply drop_chars_append.
  - cbn [String.append remove_first_occurrence].
    destruct (String.prefix pat (String c (pre ++ pat ++ post))) eqn:Hp.
    + apply String.prefix_correct in Hp. exfalso.
      apply (H 0%nat); [simpl; lia | exact Hp].
    + f_equal. apply IH. intros j Hj Ho.
      apply (H (S j)); [simpl; lia|]. apply occurs_at_tail. exact Ho.
Qed.

(** C10. The url that [reportBug] returns is the configured [apiUrl] with
    only its first occurrence of "/api" removed, followed by "/bugs/" and
    the identifier that the sink returned. If [apiUrl] has no "/api" the
    base is [apiUrl] itself; if [apiUrl] is [pre], "/api", [post] with no
    occurrence of "/api" starting inside [pre], the base is [pre] followed
    by [post], whatever [post] holds (another "/api" included). *)
Theorem reportBug_url (w : World) (data_id : string) :
  exists u,
    outcome (reportBug_resume (Success data_id)) w =
      Normal {| id := data_id; url := u |} /\
    u = (remove_first_occurrence "/api" (apiUrl (this w)) ++ "/bugs/" ++ data_id)%string /\
    ((forall j, ~ occurs_at "/api" j (apiUrl (this w))) ->
     u = (apiUrl (this w) ++ "/bugs/" ++ data_id)%string) /\
    (forall pre post,
       apiUrl (this w) = (pre ++ "/api" ++ post)%string ->
       (forall j, (j < String.length pre)%nat -> ~ occurs_at "/api" j (apiUrl (this w))) ->
       u = ((pre ++ post) ++ "/bugs/" ++ data_id)%string).
Proof.
  eexists. split; [reflexivity|].
  rewrite replace_removes_first.
  split; [reflexivity|]. split.
  - intros H. rewrite (remove_first_absent _ _ H). reflexivity.
  - intros pre post E H. rewrite E in *. rewrite (remove_first_at _ _ _ H). reflexivity.
Qed.

Lemma reportBug_url_witness :
  outcome (reportBug_resume (Success "7")) no_api_agent =
    Normal {| id := "7"; url := "http://h:3001/bugs/7" |} /\
  outcome (reportBug_resume (Success "7")) early_api_agent =
    Normal {| id := "7"; url := "http://hary/api/bugs/7" |}.
Proof.
  split.
  - destruct (reportBug_url no_api_agent "7") as [u [Ho [_ [Hu _]]]].
    rewrite Ho. rewrite Hu; [reflexivity|].
    intros j. do 13 (destruct j as [|j]; [vm_compute; discriminate|]).
    destruct j; vm_compute; discriminate.
  - destruct (reportBug_url early_api_agent "7") as [u [Ho [_ [_ Hu]]]].
    rewrite Ho. rewrite (Hu "http://h" "ary/api"); [reflexivity | reflexivity |].
    intros j Hj. do 8 (destruct j as [|j]; [vm_compute; discriminate|]).
    simpl in Hj. lia.
Defined.

(** ** Two identical outputs and a distinct third *)

Lemma stuck_in_loop_keep_last_5 (l : list string) :
  stuck_in_loop (keep_last_5 l) = stuck_in_loop l.
Proof.
  unfold keep_last_5. destruct (Nat.ltb_spec 5 (List.length l)) as [H|H]; [|reflexivity].
  destruct l as [|x l]; [reflexivity|]. simpl in H.
  unfold shift, stuck_in_loop, slice_last. cbn [List.tl List.length].
  replace (S (List.length l) - 3)%nat with (S (List.length l - 3)) by lia.
  cbn [List.skipn].
  replace (3 <=? List.length l)%nat with true by (symmetry; apply Nat.leb_le; lia).
  replace (3 <=? S (List.length l))%nat with true by (symmetry; apply Nat.leb_le; lia).
  reflexivity.
Qed.

(** The history after [push] and the conditional [shift] still ends with
    the output just pushed. *)
Lemma keep_last_5_push (l : list string) (x : string) :
  keep_last_5 (push l x) = push (front l) x.
Proof.
  unfold keep_last_5, front, push, shift. rewrite List.length_app. simpl List.length.
  destruct (Nat.ltb_spec 5 (List.length l + 1)) as [H|H]; [|reflexivity].
  destruct l as [|y l]; [simpl in H; lia | reflexivity].
Qed.






Section Distinct.

Variable clock : nat -> Z.

Lemma is_loop_report_timed_out (a : BugBoardAgent) (now : Z) :
  is_loop_report (auto_request a "Agent timed out" now) = false.
Proof. reflexivity. Qed.

Lemma trackOutput_no_loop_report (output : string) (w : World) :
  stuck_in_loop (push (outputs (retryState (this w))) output) = false ->
  loop_reports (exec (trackOutput clock output) w) = loop_reports w.
Proof.
  intros H. rewrite trackOutput_exec, stuck_in_loop_keep_last_5, H.
  destruct (_ <? _)%Z; [|reflexivity].
  unfold loop_reports, escalate, send. cbn [posted].
  rewrite List.filter_app. cbn [List.filter].
  rewrite is_loop_report_timed_out. cbn [tick posted note_output with_this].
  apply List.app_nil_r.
Qed.

Lemma trackOutput_silent (output : string) (w : World) :
  (clock (S (ticks w)) - clock (ticks w) <= timeoutMs (this w))%Z ->
  stuck_in_loop (push (outputs (retryState (this w))) output) = false ->
  posted (exec (trackOutput clock output) w) = posted w.
Proof.
  intros Ht H. rewrite trackOutput_quiet; [reflexivity | exact Ht |].
  rewrite stuck_in_loop_keep_last_5. exact H.
Qed.

Lemma trackOutput_outputs (output : string) (w : World) :
  outputs (retryState (this (exec (trackOutput clock output) w))) =
  push (front (outputs (retryState (this w)))) output.
Proof. rewrite trackOutput_this. cbn. apply keep_last_5_push. Qed.


End Distinct.




(** * Further properties of the class *)

(** ** When [trackOutput] reports *)

Lemma stuck_in_loop_push_iff (l : list string) (s : string) :
  stuck_in_loop (push l s) = true <-> exists pre, l = (pre ++ [s; s])%list.
Proof.
  split.
  - intros H. unfold push in H.
    destruct l as [|y l _] using List.rev_ind; [discriminate|].
    destruct l as [|x l _] using List.rev_ind; [discriminate|].
    rewrite <- !List.app_assoc in H. cbn [List.app] in H.
    rewrite stuck_in_loop_snoc3 in H. apply andb_prop in H. destruct H as [H1 H2].
    apply String.eqb_eq in H1, H2. subst x y.
    exists l. rewrite <- List.app_assoc. reflexivity.
  - intros [pre ->]. unfold push. rewrite <- List.app_assoc. cbn [List.app].
    rewrite stuck_in_loop_snoc3, String.eqb_refl. reflexivity.
Qed.

Lemma reasons_differ (n m : N) :
  auto_error "Agent timed out" n <> auto_error "Agent stuck in output loop" m.
Proof. unfold auto_error. cbn [String.append]. discriminate. Qed.

Lemma auto_request_error (a : BugBoardAgent) (reason reason' : string) (now : Z) (n : N) :
  body_error (req_body (auto_request a reason now)) = Some (auto_error reason' n) ->
  auto_error reason (buildFailures (retryState a)) = auto_error reason' n.
Proof.
  intros H. change (Some (auto_error reason (buildFailures (retryState a))) =
                    Some (auto_error reason' n)) in H.
  congruence.
Qed.

(** The timeout comes first. When the two clock readings of a call of
    [trackOutput] are more than [timeoutMs] apart, the call posts exactly
    one request, the automatic report of "Agent timed out", whatever the
    history holds (three identical outputs included); its logs are the
    history with the new output in it. When the readings are at most
    [timeoutMs] apart, the call posts no report of a timeout. *)
Theorem timeout_takes_priority (clock : nat -> Z) (w : World) (output : string) :
  let w' := exec (trackOutput clock output) w in
  ((timeoutMs (this w) < clock (S (ticks w)) - clock (ticks w))%Z ->
   exists rq,
     posted w' = (posted w ++ [rq])%list /\
     reports_reason "Agent timed out" rq /\
     ~ reports_reason "Agent stuck in output loop" rq /\
     body_logs (req_body rq) =
       join separator (keep_last_5 (push (outputs (retryState (this w))) output))) /\
  ((clock (S (ticks w)) - clock (ticks w) <= timeoutMs (this w))%Z ->
   forall rq, posted w' = (posted w ++ [rq])%list ->
     ~ reports_reason "Agent timed out" rq).
Proof.
  cbv zeta. rewrite trackOutput_exec. split.
  - intros Hlate.
    destruct (Z.ltb_spec (timeoutMs (this w)) (clock (S (ticks w)) - clock (ticks w)));
      [|lia].
    eexists. split; [reflexivity|]. split; [|split].
    + split; [reflexivity|]. eexists. reflexivity.
    + intros [_ [n Hn]]. apply auto_request_error in Hn.
      exact (reasons_differ _ _ Hn).
    + reflexivity.
  - intros Hin rq Hp [_ [n Hn]].
    destruct (Z.ltb_spec (timeoutMs (this w)) (clock (S (ticks w)) - clock (ticks w)));
      [lia|].
    destruct (stuck_in_loop _).
    + unfold escalate, send in Hp. cbn [posted tick note_output with_this] in Hp.
      apply List.app_inv_head in Hp. injection Hp as Hp. subst rq.
      apply auto_request_error in Hn. exact (reasons_differ _ _ (eq_sym Hn)).
    + cbn [posted tick note_output with_this] in Hp.
      rewrite <- (List.app_nil_r (posted w)) in Hp at 1.
      apply List.app_inv_head in Hp. discriminate.
Qed.

Lemma timeout_takes_priority_witness :
  let w := run still_clock [Call_trackOutput "a"; Call_trackOutput "a"]
             (example_agent still_clock) in
  exists rq,
    posted (exec (trackOutput slow_clock "a") w) = (posted w ++ [rq])%list /\
    reports_reason "Agent timed out" rq /\
    ~ reports_reason "Agent stuck in output loop" rq /\
    body_logs (req_body rq) =
      join separator (keep_last_5 (push (outputs (retryState (this w))) "a")).
Proof.
  apply (proj1 (timeout_takes_priority slow_clock
                  (run still_clock [Call_trackOutput "a"; Call_trackOutput "a"]
                     (example_agent still_clock))
                  "a")).
  vm_compute. reflexivity.
Defined.

(** The loop check, when the timeout does not fire. A call of
    [trackOutput] posts a report exactly when the history before the call
    ends with two entries equal to the new output: then it posts one
    request, the automatic report of "Agent stuck in output loop", and
    otherwise it posts nothing. Older entries and the build failure
    counter play no part. *)
Theorem loop_report_iff (clock : nat -> Z) (w : World) (output : string) :
  (clock (S (ticks w)) - clock (ticks w) <= timeoutMs (this w))%Z ->
  let w' := exec (trackOutput clock output) w in
  ((exists pre, outputs (retryState (this w)) = (pre ++ [output; output])%list) ->
   exists rq,
     posted w' = (posted w ++ [rq])%list /\
     reports_reason "Agent stuck in output loop" rq /\
     body_logs (req_body rq) =
       join separator (keep_last_5 (push (outputs (retryState (this w))) output))) /\
  ((forall pre, outputs (retryState (this w)) <> (pre ++ [output; output])%list) ->
   posted w' = posted w).
Proof.
  intros Ht. cbv zeta. split.
  - intros Hex. apply stuck_in_loop_push_iff in Hex.
    rewrite trackOutput_loop; [| exact Ht | rewrite stuck_in_loop_keep_last_5; exact Hex].
    eexists. split; [reflexivity|]. split; [|reflexivity].
    split; [reflexivity|]. eexists. reflexivity.
  - intros Hno. apply trackOutput_silent; [exact Ht|].
    destruct (stuck_in_loop _) eqn:E; [|reflexivity].
    apply stuck_in_loop_push_iff in E. destruct E as [pre E].
    exfalso. exact (Hno pre E).
Qed.

Lemma loop_report_iff_witness :
  (let w := run still_clock [Call_trackOutput "b"; Call_trackOutput "a"; Call_trackOutput "a"]
              (example_agent still_clock) in
   exists rq,
     posted (exec (trackOutput still_clock "a") w) = (posted w ++ [rq])%list /\
     reports_reason "Agent stuck in output loop" rq /\
     body_logs (req_body rq) =
       join separator (keep_last_5 (push (outputs (retryState (this w))) "a"))) /\
  (let w := run still_clock [Call_trackOutput "a"; Call_trackOutput "b"]
              (example_agent still_clock) in
   posted (exec (trackOutput still_clock "a") w) = posted w).
Proof.
  split.
  - apply (proj1 (loop_report_iff still_clock
                    (run still_clock
                       [Call_trackOutput "b"; Call_trackOutput "a"; Call_trackOutput "a"]
                       (example_agent still_clock))
                    "a" ltac:(vm_compute; discriminate))).
    exists ["b"]. reflexivity.
  - apply (proj2 (loop_report_iff still_clock
                    (run still_clock [Call_trackOutput "a"; Call_trackOutput "b"]
                       (example_agent still_clock))
                    "a" ltac:(vm_compute; discriminate))).
    intros pre E. vm_compute in E.
    destruct pre as [|x [|y [|z pre]]]; discriminate.
Defined.

(** ** After a reset *)

(** A single call after [resetRetryDetection] does not escalate:
    [trackBuildFailure] posts nothing, [trackOutput] posts no loop report,
    and posts nothing at all when its two clock readings are at most
    [timeoutMs] apart. *)
Theorem single_call_after_reset (clock : nat -> Z) (w : World) (output : string) :
  let w0 := exec (resetRetryDetection clock) w in
  posted (exec (trackBuildFailure clock) w0) = posted w /\
  loop_reports (exec (trackOutput clock output) w0) = loop_reports w /\
  ((clock (S (S (ticks w))) - clock (S (ticks w)) <= timeoutMs (this w))%Z ->
   posted (exec (trackOutput clock output) w0) = posted w).
Proof.
  cbv zeta. split; [|split].
  - rewrite (trackBuildFailure_below clock); [reflexivity|]. cbn. lia.
  - rewrite trackOutput_no_loop_report; reflexivity.
  - intros Ht. rewrite trackOutput_silent; [reflexivity | exact Ht | reflexivity].
Qed.

Lemma single_call_after_reset_witness :
  let w := run still_clock [Call_trackOutput "a"; Call_trackOutput "a"]
             (example_agent still_clock) in
  posted (exec (trackOutput still_clock "a") (exec (resetRetryDetection still_clock) w)) =
    posted w.
Proof.
  apply (proj2 (proj2 (single_call_after_reset still_clock
                         (run still_clock [Call_trackOutput "a"; Call_trackOutput "a"]
                            (example_agent still_clock))
                         "a"))).
  vm_compute. discriminate.
Defined.

(** ** What holds along every run *)

(** The cases of a sink answer: to a manual report, to an automatic one,
    or to no pending request. *)
Ltac respond_cases clock i r w :=
  let rq := fresh "rq" in
  let Hi := fresh "Hi" in
  let Ho := fresh "Ho" in
  destruct (List.nth_error (pending w) i) as [rq|] eqn:Hi;
  [ destruct (origin rq) eqn:Ho;
    [ rewrite (respond_manual clock i rq r w Hi Ho)
    | rewrite (respond_auto clock i rq r w Hi Ho) ];
    destruct r
  | rewrite (respond_out_of_range clock i r w Hi); destruct r ].

Section Invariants.

Variable clock : nat -> Z.

Lemma run_cons (e : Event) (es : list Event) (w : World) :
  run clock (e :: es) w = run clock es (step clock e w).
Proof. reflexivity. Qed.

Lemma run_app (es1 es2 : list Event) (w : World) :
  run clock (es1 ++ es2) w = run clock es2 (run clock es1 w).
Proof. unfold run. apply List.fold_left_app. Qed.

Lemma step_failures (e : Event) (w : World) (acc : N) :
  buildFailures (retryState (this w)) = acc ->
  buildFailures (retryState (this (step clock e w))) =
  (if resets e w then 0%N
   else match e with
        | Call_trackBuildFailure => (acc + 1)%N
        | _ => acc
        end).
Proof.
  intros Inv. destruct e as [output| | |ms|data|i r]; cbn [step resets].
  - rewrite trackOutput_this. exact Inv.
  - rewrite trackBuildFailure_this. cbn. rewrite Inv. reflexivity.
  - reflexivity.
  - exact Inv.
  - exact Inv.
  - respond_cases clock i r w; try exact Inv; reflexivity.
Qed.

Lemma step_config (e : Event) (w : World) :
  apiUrl (this (step clock e w)) = apiUrl (this w) /\
  agentName (this (step clock e w)) = agentName (this w) /\
  timeoutMs (this (step clock e w)) =
    match e with Call_setTimeout ms => ms | _ => timeoutMs (this w) end.
Proof.
  destruct e as [output| | |ms|data|i r]; cbn [step].
  - rewrite trackOutput_this. repeat split.
  - rewrite trackBuildFailure_this. repeat split.
  - repeat split.
  - repeat split.
  - repeat split.
  - respond_cases clock i r w; repeat split.
Qed.

(** One event posts nothing, or one request to [apiUrl]/bugs in the name
    of [agentName]. *)
Lemma step_posted (e : Event) (w : World) :
  posted (step clock e w) = posted w \/
  exists rq,
    posted (step clock e w) = (posted w ++ [rq])%list /\
    req_url rq = (apiUrl (this w) ++ "/bugs")%string /\
    body_agentName (req_body rq) = agentName (this w).
Proof.
  destruct e as [output| | |ms|data|i r]; cbn [step].
  - rewrite trackOutput_exec.
    destruct (_ <? _)%Z; [right; eexists; repeat split|].
    destruct (stuck_in_loop _); [right; eexists; repeat split | left; reflexivity].
  - rewrite trackBuildFailure_exec.
    destruct (_ <=? _)%N; [right; eexists; repeat split | left; reflexivity].
  - left; reflexivity.
  - left; reflexivity.
  - right. eexists. repeat split.
  - left. respond_cases clock i r w; reflexivity.
Qed.

Lemma step_unhandled (e : Event) (w : World) :
  unhandled (step clock e w) = unhandled w.
Proof.
  destruct e as [output| | |ms|data|i r]; cbn [step]; try reflexivity.
  - rewrite trackOutput_exec.
    destruct (_ <? _)%Z; [reflexivity|]. destruct (stuck_in_loop _); reflexivity.
  - rewrite trackBuildFailure_exec. destruct (_ <=? _)%N; reflexivity.
  - respond_cases clock i r w; reflexivity.
Qed.

End Invariants.

(** The failure counter counts. Whatever sequence of calls and sink
    answers a detector goes through after its construction,
    [buildFailures] is the number of calls of [trackBuildFailure] since the
    last reset (a call of [resetRetryDetection], or the reset after the
    successful answer to an automatic report): nothing else changes it, a
    failed report included. *)
Theorem buildFailures_counts (clock : nat -> Z) (options : BugReportOptions)
    (es : list Event) :
  buildFailures (retryState (this (run clock es (new_BugBoardAgent clock options)))) =
  failures_since_reset clock es (new_BugBoardAgent clock options) 0.
Proof.
  assert (G : forall es w acc,
             buildFailures (retryState (this w)) = acc ->
             buildFailures (retryState (this (run clock es w))) =
             failures_since_reset clock es w acc).
  { clear es. induction es as [|e es IH]; intros w acc Inv; [exact Inv|].
    rewrite run_cons. cbn [failures_since_reset]. apply IH.
    apply step_failures. exact Inv. }
  apply G. reflexivity.
Qed.

(** The configuration is fixed at construction. Along every run [apiUrl]
    and [agentName] stay what the constructor made them, [timeoutMs] is
    the argument of the last [setTimeout] (300000 when there was none),
    and every request ever posted, manual or automatic, went to
    [apiUrl]/bugs in the name of [agentName]. *)
Theorem configuration_is_fixed (clock : nat -> Z) (options : BugReportOptions)
    (es : list Event) :
  let w0 := new_BugBoardAgent clock options in
  let w := run clock es w0 in
  apiUrl (this w) = apiUrl (this w0) /\
  agentName (this w) = opt_agentName options /\
  timeoutMs (this w) = configured_timeout es 300000 /\
  List.Forall
    (fun rq => req_url rq = (apiUrl (this w0) ++ "/bugs")%string /\
               body_agentName (req_body rq) = opt_agentName options)
    (posted w).
Proof.
  cbv zeta.
  assert (G : forall es w u n,
             apiUrl (this w) = u -> agentName (this w) = n ->
             List.Forall
               (fun rq => req_url rq = (u ++ "/bugs")%string /\
                          body_agentName (req_body rq) = n) (posted w) ->
             apiUrl (this (run clock es w)) = u /\
             agentName (this (run clock es w)) = n /\
             timeoutMs (this (run clock es w)) = configured_timeout es (timeoutMs (this w)) /\
             List.Forall
               (fun rq => req_url rq = (u ++ "/bugs")%string /\
                          body_agentName (req_body rq) = n) (posted (run clock es w))).
  { clear es. induction es as [|e es IH]; intros w u n Hu Hn Hp.
    - repeat split; assumption.
    - rewrite run_cons.
      destruct (step_config clock e w) as [Eu [En Et]].
      assert (Hp' : List.Forall
                      (fun rq => req_url rq = (u ++ "/bugs")%string /\
                                 body_agentName (req_body rq) = n)
                      (posted (step clock e w))).
      { destruct (step_posted clock e w) as [E | [rq [E [E1 E2]]]]; rewrite E.
        - exact Hp.
        - apply List.Forall_app. split; [exact Hp|].
          constructor; [|constructor]. rewrite E1, E2, Hu, Hn. split; reflexivity. }
      destruct (IH (step clock e w) u n) as [R1 [R2 [R3 R4]]];
        [congruence | congruence | exact Hp' |].
      repeat split; try assumption.
      rewrite R3, Et. unfold configured_timeout. cbn [List.fold_left].
      destruct e; reflexivity. }
  apply G; [reflexivity | reflexivity | constructor].
Qed.

(** No rejection escapes. Along every run after construction no promise
    of [autoReportBug] is ever rejected: whatever the sink answers, and in
    whatever order, nothing is left unhandled. *)
Theorem no_unhandled_rejection (clock : nat -> Z) (options : BugReportOptions)
    (es : list Event) :
  unhandled (run clock es (new_BugBoardAgent clock options)) = [].
Proof.
  assert (G : forall es w, unhandled (run clock es w) = unhandled w).
  { clear es. induction es as [|e es IH]; intros w; [reflexivity|].
    rewrite run_cons, IH. apply step_unhandled. }
  rewrite G. reflexivity.
Qed.

(** ** Reports while nothing resets the state *)

Lemma run_repeat_succ (clock : nat -> Z) (e : Event) (n : nat) (w : World) :
  run clock (List.repeat e (S n)) w = run clock (List.repeat e n) (step clock e w).
Proof. reflexivity. Qed.

(** No report is held back. Once the counter has reached 2, every further
    call of [trackBuildFailure] that is not preceded by a reset posts one
    more automatic report of "Multiple build failures detected": [n] calls
    in a row, with no sink answer in between, post [n] reports and leave
    the counter [n] higher. *)
Theorem build_failure_reports_every_call (clock : nat -> Z) (w : World) (n : nat) :
  (2 <= buildFailures (retryState (this w)))%N ->
  let w' := run clock (List.repeat Call_trackBuildFailure n) w in
  buildFailures (retryState (this w')) =
    (buildFailures (retryState (this w)) + N.of_nat n)%N /\
  exists new,
    posted w' = (posted w ++ new)%list /\
    List.length new = n /\
    List.Forall (reports_reason "Multiple build failures detected") new.
Proof.
  revert w. induction n as [|n IH]; intros w Hb; cbv zeta.
  - split; [cbn; lia|]. exists []. rewrite List.app_nil_r. repeat split. constructor.
  - rewrite run_repeat_succ. cbn [step].
    assert (E : exec (trackBuildFailure clock) w =
                escalate clock "Multiple build failures detected" (note_failure clock w))
      by (apply trackBuildFailure_reached; lia).
    destruct (IH (exec (trackBuildFailure clock) w)) as [Hc [new [Hp [Hl Hf]]]].
    { rewrite E. cbn. lia. }
    split.
    + rewrite Hc, E. cbn [escalate send tick note_failure with_this with_retryState
                          this retryState buildFailures]. lia.
    + eexists (_ :: new). split; [|split].
      * rewrite Hp, E. cbn [escalate send tick note_failure with_this posted].
        rewrite <- List.app_assoc. reflexivity.
      * cbn. rewrite Hl. reflexivity.
      * constructor; [|exact Hf]. split; [reflexivity|]. eexists. reflexivity.
Qed.

Lemma build_failure_reports_witness :
  let w := run still_clock [Call_trackBuildFailure; Call_trackBuildFailure]
             (example_agent still_clock) in
  let w' := run still_clock (List.repeat Call_trackBuildFailure 4) w in
  buildFailures (retryState (this w')) =
    (buildFailures (retryState (this w)) + N.of_nat 4)%N /\
  exists new,
    posted w' = (posted w ++ new)%list /\
    List.length new = 4%nat /\
    List.Forall (reports_reason "Multiple build failures detected") new.
Proof.
  apply (build_failure_reports_every_call still_clock
           (run still_clock [Call_trackBuildFailure; Call_trackBuildFailure]
              (example_agent still_clock)) 4).
  vm_compute. discriminate.
Defined.

Lemma push_front_ends (l : list string) (s : string) :
  (exists pre, l = (pre ++ [s; s])%list) ->
  exists pre, push (front l) s = (pre ++ [s; s])%list.
Proof.
  intros [pre ->]. unfold front, push.
  destruct (5 <? List.length (pre ++ [s; s]) + 1)%nat eqn:E.
  - destruct pre as [|x pre]; [discriminate|].
    exists (pre ++ [s])%list. cbn [List.app List.tl].
    rewrite <- !List.app_assoc. reflexivity.
  - exists (pre ++ [s])%list. rewrite <- !List.app_assoc. reflexivity.
Qed.

(** The same for outputs. Once the history ends with two equal entries,
    every further call of [trackOutput] with that text posts one more
    automatic report of "Agent stuck in output loop", as long as no reset
    comes in between and the timeout does not fire, that is, each call
    takes its own two clock readings at most [timeoutMs] apart, however
    long the calls are apart: [n] such calls in a row post [n] reports. *)
Theorem identical_output_reports_every_call (clock : nat -> Z) (w : World)
    (s : string) (n : nat) :
  calls_in_time clock (List.repeat (Call_trackOutput s) n) w ->
  (exists pre, outputs (retryState (this w)) = (pre ++ [s; s])%list) ->
  let w' := run clock (List.repeat (Call_trackOutput s) n) w in
  exists new,
    posted w' = (posted w ++ new)%list /\
    List.length new = n /\
    List.Forall (reports_reason "Agent stuck in output loop") new.
Proof.
  revert w. induction n as [|n IH]; intros w Ht Hex; cbv zeta.
  - exists []. rewrite List.app_nil_r. repeat split. constructor.
  - rewrite run_repeat_succ.
    cbn [List.repeat calls_in_time] in Ht. destruct Ht as [Ht0 Ht].
    cbn [step] in *.
    assert (E : exec (trackOutput clock s) w =
                escalate clock "Agent stuck in output loop"
                  (tick (note_output clock s w))).
    { apply trackOutput_loop; [exact Ht0|].
      rewrite stuck_in_loop_keep_last_5. apply stuck_in_loop_push_iff. exact Hex. }
    destruct (IH (exec (trackOutput clock s) w)) as [new [Hp [Hl Hf]]].
    { exact Ht. }
    { rewrite trackOutput_outputs. apply push_front_ends. exact Hex. }
    eexists (_ :: new). split; [|split].
    + rewrite Hp, E. cbn [escalate send tick note_output with_this posted].
      rewrite <- List.app_assoc. reflexivity.
    + cbn. rewrite Hl. reflexivity.
    + constructor; [|exact Hf]. split; [reflexivity|]. eexists. reflexivity.
Qed.

Lemma identical_output_reports_witness :
  let w := run spaced_clock [Call_trackOutput "a"; Call_trackOutput "a"]
             (example_agent spaced_clock) in
  (spaced_clock 8 - spaced_clock 5 = 1000000)%Z /\
  let w' := run spaced_clock (List.repeat (Call_trackOutput "a") 3) w in
  exists new,
    posted w' = (posted w ++ new)%list /\
    List.length new = 3%nat /\
    List.Forall (reports_reason "Agent stuck in output loop") new.
Proof.
  split; [reflexivity|].
  apply (identical_output_reports_every_call spaced_clock
           (run spaced_clock [Call_trackOutput "a"; Call_trackOutput "a"]
              (example_agent spaced_clock)) "a" 3).
  - vm_compute. repeat split; discriminate.
  - exists []. reflexivity.
Defined.

(** ** What an automatic report carries *)

Lemma append_empty_r (s : string) : (s ++ "")%string = s.
Proof. induction s as [|c s IH]; simpl; [reflexivity | f_equal; exact IH]. Qed.

Lemma join_contains (sep : string) (l : list string) (o : string) :
  List.In o l -> contains o (join sep l).
Proof.
  induction l as [|x l IH]; intros Hin; [contradiction|].
  destruct l as [|y l].
  - destruct Hin as [->|[]]. exists EmptyString, EmptyString.
    cbn. rewrite append_empty_r. reflexivity.
  - change (join sep (x :: y :: l)) with (x ++ sep ++ join sep (y :: l))%string.
    destruct Hin as [->|Hin].
    + exists EmptyString, (sep ++ join sep (y :: l))%string. reflexivity.
    + destruct (IH Hin) as [pre [post E]]. rewrite E.
      exists (x ++ sep ++ pre)%string, post.
      rewrite !append_assoc. reflexivity.
Qed.

(** The logs of an automatic report hold the history. Whatever the reason,
    [autoReportBug] posts one request whose logs contain every output that
    the history holds at that moment and are empty when the history is
    empty (a report of build failures with no output tracked); the call
    itself leaves the instance as it is, the history included. *)
Theorem auto_report_carries_history (clock : nat -> Z) (reason : string) (w : World) :
  let w' := exec (autoReportBug clock reason) w in
  this w' = this w /\
  exists rq,
    posted w' = (posted w ++ [rq])%list /\
    reports_reason reason rq /\
    (forall o, List.In o (outputs (retryState (this w))) ->
               contains o (body_logs (req_body rq))) /\
    (outputs (retryState (this w)) = [] -> body_logs (req_body rq) = EmptyString).
Proof.
  cbv zeta. unfold exec. rewrite autoReportBug_run. cbn [snd].
  split; [reflexivity|]. eexists. split; [reflexivity|]. split; [|split].
  - split; [reflexivity|]. eexists. reflexivity.
  - intros o Hin. apply join_contains. exact Hin.
  - intros E. cbn. rewrite E. reflexivity.
Qed.

Lemma auto_report_carries_history_witness :
  let w := run still_clock [Call_trackOutput "a"; Call_trackOutput "b"]
             (example_agent still_clock) in
  exists rq,
    posted (exec (autoReportBug still_clock "Agent timed out") w) = (posted w ++ [rq])%list /\
    contains "b" (body_logs (req_body rq)).
Proof.
  destruct (proj2 (auto_report_carries_history still_clock "Agent timed out"
                     (run still_clock [Call_trackOutput "a"; Call_trackOutput "b"]
                        (example_agent still_clock))))
    as [rq [Hp [_ [Hc _]]]].
  exists rq. split; [exact Hp|]. apply Hc. right. left. reflexivity.
Defined.

(** ** The exported functions *)

(** The exported [reportBug(data, options)]. It posts exactly one request,
    the manual report of [data] in the name of [options.agentName]. With
    [apiUrl] missing or the empty string the request goes to
    https://bugboard.ai/api/bugs and a successful answer resolves to the
    url https://bugboard.ai/bugs/ followed by the identifier; with any
    other [apiUrl] it goes to that url followed by /bugs. A failure of the
    sink reaches the caller. *)
Theorem exported_reportBug (clock : nat -> Z) (data : BugData)
    (options : BugReportOptions) :
  let w := reportBug clock data options in
  let body := {| body_agentName := opt_agentName options;
                 body_input := input data;
                 body_logs := logs data;
                 body_error := error data;
                 timestamp := clock 1%nat |} in
  pending w = posted w /\
  (forall e, settled (respond clock 0 (Failure e) w) = [Throw e]) /\
  (opt_apiUrl options = None \/ opt_apiUrl options = Some EmptyString ->
   posted w = [{| origin := Manual;
                  req_url := "https://bugboard.ai/api/bugs";
                  req_body := body |}] /\
   forall data_id,
     settled (respond clock 0 (Success data_id) w) =
     [Normal {| id := data_id;
                url := ("https://bugboard.ai/bugs/" ++ data_id)%string |}]) /\
  (forall u, opt_apiUrl options = Some u -> u <> EmptyString ->
   posted w = [{| origin := Manual;
                  req_url := (u ++ "/bugs")%string;
                  req_body := body |}] /\
   forall data_id,
     settled (respond clock 0 (Success data_id) w) =
     [Normal {| id := data_id;
                url := (remove_first_occurrence "/api" u ++ "/bugs/" ++ data_id)%string |}]).
Proof.
  cbv zeta. destruct options as [[u|] n]; cbn [opt_apiUrl opt_agentName].
  - destruct (String.eqb_spec u EmptyString) as [->|Hne].
    + repeat split; try reflexivity; intros; congruence.
    + split; [reflexivity|]. split; [reflexivity|]. split.
      * intros [H|H]; congruence.
      * intros u' Hu' _. injection Hu' as <-.
        unfold reportBug, new_BugBoardAgent. cbn [opt_apiUrl opt_agentName].
        destruct (String.eqb_spec u EmptyString) as [E|_]; [contradiction|].
        split; [reflexivity|]. intros data_id.
        rewrite <- replace_removes_first. reflexivity.
  - repeat split; try reflexivity; intros; congruence.
Qed.

Lemma exported_reportBug_witness :
  (let w := reportBug still_clock {| input := "x"; logs := "y"; error := None |}
              {| opt_apiUrl := Some EmptyString; opt_agentName := "ExampleAgent" |} in
   forall data_id,
     settled (respond still_clock 0 (Success data_id) w) =
     [Normal {| id := data_id;
                url := ("https://bugboard.ai/bugs/" ++ data_id)%string |}]) /\
  (let w := reportBug still_clock {| input := "x"; logs := "y"; error := None |}
              example_options in
   forall data_id,
     settled (respond still_clock 0 (Success data_id) w) =
     [Normal {| id := data_id;
                url := (remove_first_occurrence "/api" "http://localhost:3001/api"
                        ++ "/bugs/" ++ data_id)%string |}]).
Proof.
  split.
  - apply (proj1 (proj2 (proj2
             (exported_reportBug still_clock {| input := "x"; logs := "y"; error := None |}
                {| opt_apiUrl := Some EmptyString; opt_agentName := "ExampleAgent" |})))).
    right. reflexivity.
  - apply (proj2 (proj2 (proj2
             (exported_reportBug still_clock {| input := "x"; logs := "y"; error := None |}
                example_options)))
             "http://localhost:3001/api" eq_refl).
    discriminate.
Defined.

(** ** A new agent *)

Lemma stuck_in_loop_short (o : list string) :
  (List.length o < 3)%nat -> stuck_in_loop o = false.
Proof.
  intros H. unfold stuck_in_loop.
  destruct (Nat.leb_spec 3 (List.length o)); [lia | reflexivity].
Qed.

Lemma front_short (l : list string) : (List.length l < 5)%nat -> front l = l.
Proof.
  intros H. unfold front.
  destruct (Nat.ltb_spec 5 (List.length l + 1)); [lia | reflexivity].
Qed.

Lemma quiet_tracking (clock : nat -> Z) (es : list Event) (w : World) :
  List.Forall (fun e => is_trackOutput e || is_trackBuildFailure e = true) es ->
  (List.length (outputs (retryState (this w)))
   + List.length (List.filter is_trackOutput es) < 3)%nat ->
  (buildFailures (retryState (this w))
   + N.of_nat (List.length (List.filter is_trackBuildFailure es)) < 3)%N ->
  calls_in_time clock es w ->
  posted (run clock es w) = posted w.
Proof.
  revert w. induction es as [|e es IH]; intros w Hall Ho Hb Ht; [reflexivity|].
  rewrite run_cons. inversion Hall as [|e' es' He Hes]; subst.
  cbn [calls_in_time] in Ht. destruct Ht as [Ht0 Ht].
  destruct e as [output| | |ms|data|i r]; try discriminate; cbn [step] in *.
  - cbn [List.filter is_trackOutput List.length] in Ho.
    cbn [List.filter is_trackBuildFailure] in Hb.
    assert (Hs : stuck_in_loop (push (outputs (retryState (this w))) output) = false).
    { apply stuck_in_loop_short. unfold push. rewrite List.length_app. simpl. lia. }
    rewrite IH; [apply trackOutput_silent; [exact Ht0 | exact Hs] | exact Hes | | |].
    + rewrite trackOutput_outputs, front_short by lia.
      unfold push. rewrite List.length_app. simpl. lia.
    + rewrite trackOutput_this. exact Hb.
    + exact Ht.
  - cbn [List.filter is_trackOutput] in Ho.
    cbn [List.filter is_trackBuildFailure List.length] in Hb.
    rewrite (trackBuildFailure_below clock w) in * by lia.
    rewrite IH; [reflexivity | exact Hes | exact Ho | cbn; lia | exact Ht].
Qed.

(** Fewer than three of a kind stay quiet. An agent made by
    [createBugBoardAgent] that is only fed [trackOutput] and
    [trackBuildFailure] calls, fewer than three of each in any order and
    with any texts, posts nothing, as long as no call of [trackOutput]
    takes more than the timeout (the default, 300000 ms) between its own
    two clock readings, however long after the construction or after one
    another the calls come. *)
Theorem new_agent_stays_quiet (clock : nat -> Z) (options : BugReportOptions)
    (es : list Event) :
  List.Forall (fun e => is_trackOutput e || is_trackBuildFailure e = true) es ->
  (List.length (List.filter is_trackOutput es) < 3)%nat ->
  (List.length (List.filter is_trackBuildFailure es) < 3)%nat ->
  calls_in_time clock es (createBugBoardAgent clock options) ->
  posted (run clock es (createBugBoardAgent clock options)) = [].
Proof.
  intros Hall Ho Hb Ht.
  rewrite (quiet_tracking clock es); [reflexivity | exact Hall | exact Ho | | exact Ht].
  cbn. lia.
Qed.

Lemma new_agent_stays_quiet_witness :
  (late_start_clock 1 - late_start_clock 0 = 1000000)%Z /\
  posted (run late_start_clock
            [Call_trackOutput "a"; Call_trackBuildFailure; Call_trackOutput "a";
             Call_trackBuildFailure]
            (createBugBoardAgent late_start_clock example_options)) = [].
Proof.
  split; [reflexivity|].
  apply (new_agent_stays_quiet late_start_clock example_options).
  - repeat constructor.
  - vm_compute. lia.
  - vm_compute. lia.
  - vm_compute. repeat split; discriminate.
Defined.
